(* Shallow embedding of the bin ledger of Farm_2.py (Farm Bin & Delivery
   Tracker).  The pandas tables of the script are lists of records; each
   form handler is a function from the tables loaded at the start of the
   Streamlit run to the tables it leaves (and saves) and the notices it
   shows.  Bushel quantities are whole numbers (Z): the script computes
   in floats, and on whole numbers of magnitude at most 2^52 the float
   sums, differences, comparisons, min and max it uses are exact, so on
   such quantities the model's arithmetic is the script's.  Theorems whose
   truth depends on exact arithmetic take that range ([whole_range]) as a
   hypothesis. *)

From Stdlib Require Import ZArith String Ascii List Bool Lia.
Import ListNotations.
Open Scope string_scope.
Open Scope list_scope.
Open Scope Z_scope.

(* ------------------------------------------------------------------ *)
(** * Python strings: [str.strip] *)

(** [str.isspace] on code points below 256: \t \n \v \f \r, the
    separators \x1c-\x1f, space, \x85 and \xa0. *)
Definition is_space (c : ascii) : bool :=
  let n := nat_of_ascii c in
  ((9 <=? n) && (n <=? 13))%nat || ((28 <=? n) && (n <=? 32))%nat
  || (n =? 133)%nat || (n =? 160)%nat.

Fixpoint drop_space (l : list ascii) : list ascii :=
  match l with
  | [] => []
  | c :: r => if is_space c then drop_space r else l
  end.

(** [s.strip()]: drop leading, then trailing, whitespace. *)
Definition strip (s : string) : string :=
  string_of_list_ascii
    (rev (drop_space (rev (drop_space (list_ascii_of_string s))))).

(* ------------------------------------------------------------------ *)
(** * DataFrame cells and rows *)

(** A cell of the text column [Variety]: a Python string, or the float
    NaN that pandas stores for a missing value. *)
Inductive cell :=
| CStr (s : string)
| CNaN.

(** [x or ""]: the empty string is falsy; the float NaN is truthy. *)
Definition or_empty (x : cell) : cell :=
  match x with
  | CStr s => if String.eqb s "" then CStr "" else CStr s
  | CNaN => CNaN
  end.

(** [str(x)] *)
Definition py_str (x : cell) : string :=
  match x with
  | CStr s => s
  | CNaN => "nan"
  end.

(** [str(bin_setup.at[idx, "Variety"] or "").strip()] *)
Definition variety_text (x : cell) : string := strip (py_str (or_empty x)).

(** A row of [bin_setup.csv]: Bin, Capacity_bu, Variety, Bushels_in_bin. *)
Record bin_row := mk_bin {
  Bin : string;
  Capacity_bu : Z;
  Variety : cell;
  Bushels_in_bin : Z
}.

Definition set_Bin (v : string) (r : bin_row) : bin_row :=
  mk_bin v (Capacity_bu r) (Variety r) (Bushels_in_bin r).
Definition set_Capacity_bu (v : Z) (r : bin_row) : bin_row :=
  mk_bin (Bin r) v (Variety r) (Bushels_in_bin r).
Definition set_Variety (v : cell) (r : bin_row) : bin_row :=
  mk_bin (Bin r) (Capacity_bu r) v (Bushels_in_bin r).
Definition set_Bushels_in_bin (v : Z) (r : bin_row) : bin_row :=
  mk_bin (Bin r) (Capacity_bu r) (Variety r) v.

(** A row of [deliveries.csv]. *)
Record delivery_row := mk_delivery {
  d_Timestamp : string;
  d_Truck : string;
  d_Bin : string;
  d_Variety : string;
  d_Bushels : Z;
  d_Notes : string
}.

(** A row of [unloads.csv]. *)
Record unload_row := mk_unload {
  u_Timestamp : string;
  u_Bin : string;
  u_Variety : string;
  u_Bushels : Z;
  u_Destination : string;
  u_Notes : string
}.

(** [bin_setup.index[bin_setup["Bin"] == name][0]]: the first row whose
    name matches; [None] is the IndexError of an empty selection. *)
Fixpoint bin_index (name : string) (l : list bin_row) : option nat :=
  match l with
  | [] => None
  | r :: rest =>
      if String.eqb (Bin r) name then Some O
      else option_map S (bin_index name rest)
  end.

(** [df.at[idx, col] = v]: update row [idx] in place. *)
Fixpoint set_at {A} (n : nat) (f : A -> A) (l : list A) : list A :=
  match l, n with
  | [], _ => []
  | x :: r, O => f x :: r
  | x :: r, S m => x :: set_at m f r
  end.

(** [df.drop(index=idx).reset_index(drop=True)] *)
Fixpoint drop_at {A} (n : nat) (l : list A) : list A :=
  match l, n with
  | [], _ => []
  | _ :: r, O => r
  | x :: r, S m => x :: drop_at m r
  end.

(* ------------------------------------------------------------------ *)
(** * Messages shown by the handlers *)

Inductive notice :=
| NErrorInput                                     (* "Please select a bin and enter bushels > 0." *)
| NErrorName                                      (* "Please enter a bin name." *)
| NErrorMix (bin current_var variety : string)    (* "... already has ... Can't mix with ..." *)
| NWarnCapacity (excess remaining : Z)            (* "Adding would exceed capacity by ..." *)
| NDelivered (add_amt in_bin : Z)                 (* "Added ... bu to ... In bin: ..." *)
| NWarnStock (requested available : Z)            (* "Requested ... but only ... available." *)
| NUnloaded (take remaining : Z)                  (* "Unloaded ... bu from ... Remaining: ..." *)
| NUpdated (name : string)
| NAdded (name : string)
| NSaved
| NDeleted
| NResetAll
| NClearedVariety (name : string).

(* ------------------------------------------------------------------ *)
(** * Add Delivery tab: the [submit_delivery] handler (lines 214-256) *)

(* The handler's [float] quantities are whole bushels here: [cap - current],
   [max], the comparison and [current + add_amt] are exact in floats on
   whole numbers within [whole_range]; on fractional quantities the script
   rounds (capacity 1000.1, fill 132.7, 900 delivered ends at
   1000.1000000000001), which this model does not follow. *)

Record delivery_run := {
  dr_bins : list bin_row;
  dr_deliveries : list delivery_row;
  dr_notices : list notice
}.

(** [ts] is the value of [now_ts()].  [None] is an uncaught exception. *)
Definition submit_delivery (ts : string) (bin_setup : list bin_row)
    (deliveries : list delivery_row) (truck bin_choice variety : string)
    (bushels : Z) (notes : string) : option delivery_run :=
  if String.eqb bin_choice "" || (bushels <=? 0) then
    Some {| dr_bins := bin_setup; dr_deliveries := deliveries;
            dr_notices := [NErrorInput] |}
  else
    match bin_index bin_choice bin_setup with
    | None => None
    | Some idx =>
      match nth_error bin_setup idx with
      | None => None
      | Some row =>
        (* Variety logic *)
        let current_var0 := variety_text (Variety row) in
        let '(bin_setup1, current_var) :=
          if String.eqb current_var0 "" then
            (set_at idx (set_Variety (CStr (strip variety))) bin_setup,
             strip variety)
          else (bin_setup, current_var0) in
        if negb (String.eqb (strip variety) current_var) then
          Some {| dr_bins := bin_setup1; dr_deliveries := deliveries;
                  dr_notices := [NErrorMix bin_choice current_var (strip variety)] |}
        else
          (* Capacity check *)
          let cap := Capacity_bu row in
          let current := Bushels_in_bin row in
          let remaining := if 0 <? cap then Some (Z.max 0 (cap - current)) else None in
          let '(add_amt, warn) :=
            match remaining with
            | Some rem =>
                if rem <? bushels then (rem, [NWarnCapacity (bushels - rem) rem])
                else (bushels, [])
            | None => (bushels, [])
            end in
          (* Update bin *)
          let bin_setup2 :=
            set_at idx (set_Bushels_in_bin (current + add_amt)) bin_setup1 in
          (* Record delivery *)
          let new_row := mk_delivery ts (strip truck) bin_choice current_var
                                     bushels (strip notes) in
          Some {| dr_bins := bin_setup2;
                  dr_deliveries := deliveries ++ [new_row];
                  dr_notices := warn ++ [NDelivered add_amt (current + add_amt)] |}
      end
    end.

(* ------------------------------------------------------------------ *)
(** * Unload Bin tab: the [submit_unload] handler (lines 271-304) *)

Record unload_run := {
  ur_bins : list bin_row;
  ur_unloads : list unload_row;
  ur_notices : list notice
}.

Definition submit_unload (ts : string) (bin_setup : list bin_row)
    (unloads : list unload_row) (bin_choice_u destination : string)
    (bushels_u : Z) (notes_u : string) : option unload_run :=
  if String.eqb bin_choice_u "" || (bushels_u <=? 0) then
    Some {| ur_bins := bin_setup; ur_unloads := unloads;
            ur_notices := [NErrorInput] |}
  else
    match bin_index bin_choice_u bin_setup with
    | None => None
    | Some idx =>
      match nth_error bin_setup idx with
      | None => None
      | Some row =>
        let current := Bushels_in_bin row in
        let var_here := variety_text (Variety row) in
        let '(take, warn) :=
          if current <? bushels_u then (current, [NWarnStock bushels_u current])
          else (bushels_u, []) in
        (* Update bin; the assigned variety is kept when the bin empties *)
        let new_fill := Z.max 0 (current - take) in
        let bin_setup1 := set_at idx (set_Bushels_in_bin new_fill) bin_setup in
        (* Record unload *)
        let new_row_u := mk_unload ts bin_choice_u var_here take
                                   (strip destination) (strip notes_u) in
        Some {| ur_bins := bin_setup1;
                ur_unloads := unloads ++ [new_row_u];
                ur_notices := warn ++ [NUnloaded take new_fill] |}
      end
    end.

(* ------------------------------------------------------------------ *)
(** * Bins Setup tab *)

(** The "Add / Update Bin" form (lines 137-168).  The existing row is
    looked up with the name as typed ([astype(str) == bin_name]); a new
    row stores the stripped name.  [capacity] comes from a
    [number_input] with [min_value=0.0]. *)
Definition submit_add_bin (bin_setup : list bin_row)
    (bin_name : string) (capacity : Z) (variety : string)
    : list bin_row * list notice :=
  if String.eqb (strip bin_name) "" then (bin_setup, [NErrorName])
  else
    match bin_index bin_name bin_setup with
    | Some idx =>
        (* Update existing *)
        let b1 := if 0 <=? capacity
                  then set_at idx (set_Capacity_bu capacity) bin_setup
                  else bin_setup in
        (set_at idx (set_Variety (CStr (strip variety))) b1, [NUpdated bin_name])
    | None =>
        (* Create new *)
        let new_row := mk_bin (strip bin_name) capacity (CStr (strip variety)) 0 in
        (bin_setup ++ [new_row], [NAdded bin_name])
    end.

(** "Save Changes" of the Edit / Remove expander (lines 186-193); [sel]
    is the selected bin, [new_cap] comes from a [number_input] without
    a lower bound. *)
Definition save_changes (bin_setup : list bin_row) (sel new_name : string)
    (new_cap : Z) (new_var : string) (reset_fill : bool)
    : option (list bin_row * list notice) :=
  if String.eqb sel "" then Some (bin_setup, [])
  else
    match bin_index sel bin_setup with
    | None => None
    | Some idx =>
        let upd (r : bin_row) :=
          let r1 := set_Variety (CStr (strip new_var))
                      (set_Capacity_bu new_cap (set_Bin (strip new_name) r)) in
          if reset_fill then set_Bushels_in_bin 0 r1 else r1 in
        Some (set_at idx upd bin_setup, [NSaved])
    end.

(** "Delete Bin" (lines 194-197): the row is dropped unconditionally. *)
Definition delete_bin (bin_setup : list bin_row) (sel : string)
    : option (list bin_row * list notice) :=
  if String.eqb sel "" then Some (bin_setup, [])
  else
    match bin_index sel bin_setup with
    | None => None
    | Some idx => Some (drop_at idx bin_setup, [NDeleted])
    end.

(** Sidebar "Reset Bin Fill to 0" (lines 91-96). *)
Definition reset_bin_fill (bs : list bin_row) : list bin_row * list notice :=
  match bs with
  | [] => (bs, [])
  | _ => (map (set_Bushels_in_bin 0) bs, [NResetAll])
  end.

(** "Clear Variety" on an empty bin (lines 313-317); the bin is chosen
    among the rows with zero fill and a set variety. *)
Definition clear_variety (bin_setup : list bin_row) (bin_to_clear : string)
    : option (list bin_row * list notice) :=
  match bin_index bin_to_clear bin_setup with
  | None => None
  | Some idx =>
      Some (set_at idx (set_Variety (CStr "")) bin_setup,
            [NClearedVariety bin_to_clear])
  end.

(* ------------------------------------------------------------------ *)
(** * CSV persistence of the Variety column *)

(** [df.to_csv]: a NaN cell is written as an empty field. *)
Definition save_variety (x : cell) : string :=
  match x with
  | CStr s => s
  | CNaN => ""
  end.

(** [pd.read_csv] with its default [na_values]: these fields load as NaN. *)
Definition na_fields : list string :=
  [""; "#N/A"; "#N/A N/A"; "#NA"; "-1.#IND"; "-1.#QNAN"; "-NaN"; "-nan";
   "1.#IND"; "1.#QNAN"; "<NA>"; "N/A"; "NA"; "NULL"; "NaN"; "None";
   "n/a"; "nan"; "null"].

Definition load_variety (s : string) : cell :=
  if existsb (String.eqb s) na_fields then CNaN else CStr s.

(** [save_bin_setup] followed by [load_bin_setup] at the top of the next
    Streamlit run, for a table whose Bin and Variety columns [read_csv]
    reads back as text ([csv_text_table] below): names and whole-bushel
    quantities come back unchanged, a Variety cell by [load_variety]. *)
Definition reload_bins (bin_setup : list bin_row) : list bin_row :=
  map (fun r => set_Variety (load_variety (save_variety (Variety r))) r) bin_setup.

(** [read_csv] types a column by all its values: numeric when every value
    that is not a missing-value marker parses as a number, boolean when
    every such value spells True or False, text (object) otherwise.  In a
    text column a value reads back verbatim and a marker as NaN, which is
    what [load_variety] does cell by cell; a column holding only markers
    reads back as NaN everywhere, which [load_variety] also gives.
    [numeric_char] over-approximates the characters of a number the
    parser accepts: digits, signs, point, exponent and the letters of
    "inf"/"infinity" in either case, and blanks. *)
Definition numeric_char (c : ascii) : bool :=
  let n := nat_of_ascii c in
  ((48 <=? n) && (n <=? 57))%nat || is_space c
  || existsb (Ascii.eqb c) (list_ascii_of_string "+-.,_eEiInNfFtTyY").

Definition lower (c : ascii) : ascii :=
  let n := nat_of_ascii c in
  if ((65 <=? n) && (n <=? 90))%nat then ascii_of_nat (n + 32) else c.

Definition is_na (s : string) : bool := existsb (String.eqb s) na_fields.

(** A value that keeps its column text: not a missing-value marker, not
    a number, not a spelling of a boolean. *)
Definition text_value (s : string) : bool :=
  negb (is_na s)
  && negb (forallb numeric_char (list_ascii_of_string s))
  && negb (existsb
             (String.eqb (string_of_list_ascii (map lower (list_ascii_of_string (strip s)))))
             ["true"; "false"]).

(** The saved table reads back with a text Bin column in which no name is
    a marker, and a Variety column that is text or holds only markers:
    then [reload_bins] is what [load_bin_setup] returns. *)
Definition csv_text_table (l : list bin_row) : bool :=
  let vs := map (fun r => save_variety (Variety r)) l in
  existsb text_value (map Bin l)
  && forallb (fun r => negb (is_na (Bin r))) l
  && (forallb is_na vs || existsb text_value vs).

(* ------------------------------------------------------------------ *)
(** * One user action per Streamlit run *)

Record farm := {
  bins : list bin_row;
  delivs : list delivery_row;
  unlds : list unload_row
}.

Inductive action :=
| AddBin (bin_name : string) (capacity : Z) (variety : string)
| SaveChanges (sel new_name : string) (new_cap : Z) (new_var : string) (reset_fill : bool)
| DeleteBin (sel : string)
| Deliver (ts truck bin_choice variety : string) (bushels : Z) (notes : string)
| Unload (ts bin_choice_u destination : string) (bushels_u : Z) (notes_u : string)
| ResetFill
| ClearVariety (bin_to_clear : string).

Definition with_bins (s : farm) (b : list bin_row) : farm :=
  {| bins := b; delivs := delivs s; unlds := unlds s |}.

(** The tables after the action ([None]: the run raised). *)
Definition step (s : farm) (a : action) : option farm :=
  match a with
  | AddBin n c v => Some (with_bins s (fst (submit_add_bin (bins s) n c v)))
  | SaveChanges sel n c v r =>
      option_map (fun p => with_bins s (fst p)) (save_changes (bins s) sel n c v r)
  | DeleteBin sel =>
      option_map (fun p => with_bins s (fst p)) (delete_bin (bins s) sel)
  | Deliver ts tr b v q nt =>
      option_map (fun r => {| bins := dr_bins r; delivs := dr_deliveries r;
                              unlds := unlds s |})
                 (submit_delivery ts (bins s) (delivs s) tr b v q nt)
  | Unload ts b d q nt =>
      option_map (fun r => {| bins := ur_bins r; delivs := delivs s;
                              unlds := ur_unloads r |})
                 (submit_unload ts (bins s) (unlds s) b d q nt)
  | ResetFill => Some (with_bins s (fst (reset_bin_fill (bins s))))
  | ClearVariety n =>
      option_map (fun p => with_bins s (fst p)) (clear_variety (bins s) n)
  end.

(* ------------------------------------------------------------------ *)
(** * Properties stated by the spec *)

(** The per-bin bound: [0 <= fill] and ([capacity == 0] or
    [fill <= capacity]). *)
Definition inv_bin (r : bin_row) : Prop :=
  0 <= Bushels_in_bin r /\ (Capacity_bu r = 0 \/ Bushels_in_bin r <= Capacity_bu r).

Definition inv_bins (l : list bin_row) : Prop := Forall inv_bin l.

(** Whole bushels of magnitude at most 2^52, where the script's float
    arithmetic on the quantities (and on the sum or difference of two of
    them) is exact. *)
Definition whole_range (x : Z) : Prop := -4503599627370496 <= x <= 4503599627370496.

Definition whole_bins (l : list bin_row) : Prop :=
  Forall (fun r => whole_range (Capacity_bu r) /\ whole_range (Bushels_in_bin r)) l.

(** The quantity an action enters. *)
Definition action_whole (a : action) : Prop :=
  match a with
  | AddBin _ c _ => whole_range c
  | SaveChanges _ _ c _ _ => whole_range c
  | Deliver _ _ _ _ q _ => whole_range q
  | Unload _ _ _ q _ => whole_range q
  | ResetFill | DeleteBin _ | ClearVariety _ => True
  end.

(** The amount a delivery of [q] can add to a bin of capacity [cap]
    holding [cur]: [min(q, max(0, cap - cur))] when [cap > 0]. *)
Definition accepted_amount (cap cur q : Z) : Z :=
  if 0 <? cap then Z.min q (Z.max 0 (cap - cur)) else q.

(** The current variety after the first-fill rule (lines 220-224). *)
Definition adopted_var (x : cell) (variety : string) : string :=
  if String.eqb (variety_text x) "" then strip variety else variety_text x.

Definition adopted_row (row : bin_row) (variety : string) : bin_row :=
  if String.eqb (variety_text (Variety row)) "" then
    set_Variety (CStr (strip variety)) row
  else row.

Definition capacity_notices (cap cur q : Z) : list notice :=
  if (0 <? cap) && (Z.max 0 (cap - cur) <? q) then
    [NWarnCapacity (q - Z.max 0 (cap - cur)) (Z.max 0 (cap - cur))]
  else [].


(** Side condition of a capacity edit (the "Add / Update Bin" form on an
    existing name, or "Save Changes"): the new capacity is 0 or at least
    the fill the edited bin keeps.  For the add form, [0 <= capacity] is
    the range of its [number_input]. *)
Definition cap_edit_ok (l : list bin_row) (a : action) : Prop :=
  match a with
  | AddBin n c _ =>
      0 <= c /\
      (forall idx row, bin_index n l = Some idx -> nth_error l idx = Some row ->
         c = 0 \/ Bushels_in_bin row <= c)
  | SaveChanges sel _ c _ rf =>
      forall idx row, bin_index sel l = Some idx -> nth_error l idx = Some row ->
        c = 0 \/ (if rf then 0 else Bushels_in_bin row) <= c
  | _ => True
  end.

(** "The delivery log records the amount actually added to the bin." *)
Definition delivery_logs_added (ts : string) (bins : list bin_row)
    (log : list delivery_row) (tr b v : string) (q : Z) (nt : string) : Prop :=
  forall r idx row row' e,
    submit_delivery ts bins log tr b v q nt = Some r ->
    bin_index b bins = Some idx -> nth_error bins idx = Some row ->
    nth_error (dr_bins r) idx = Some row' ->
    dr_deliveries r = log ++ [e] ->
    d_Bushels e = Bushels_in_bin row' - Bushels_in_bin row.

(** "A clamped delivery fills the bin to its capacity." *)
Definition clamp_reaches_capacity (ts : string) (bins : list bin_row)
    (log : list delivery_row) (tr b v : string) (q : Z) (nt : string) : Prop :=
  forall r idx row row',
    submit_delivery ts bins log tr b v q nt = Some r ->
    dr_deliveries r <> log ->
    bin_index b bins = Some idx -> nth_error bins idx = Some row ->
    nth_error (dr_bins r) idx = Some row' ->
    0 < Capacity_bu row ->
    Z.max 0 (Capacity_bu row - Bushels_in_bin row) < q ->
    Bushels_in_bin row' = Capacity_bu row'.

(** Sample tables: bin A of the spec's scenario holding 600 bu of Wheat,
    and a bin A set up with no variety. *)
Definition ex_bins : list bin_row := [mk_bin "A" 1000 (CStr "Wheat") 600].
Definition ex_unassigned : list bin_row := [mk_bin "A" 1000 (CStr "") 0].

(** The run that delivers 500 bu of Wheat to [ex_bins]. *)
Definition ex_run : delivery_run :=
  {| dr_bins := [mk_bin "A" 1000 (CStr "Wheat") 1000];
     dr_deliveries := [mk_delivery "t" "T1" "A" "Wheat" 500 ""];
     dr_notices := [NWarnCapacity 100 400; NDelivered 400 1000] |}.

(* ------------------------------------------------------------------ *)
(** * Dashboard and the Clear Variety expander *)

(** The [Remaining_bu] column (line 111):
    [(Capacity_bu - Bushels_in_bin).clip(lower=0)]. *)
Definition remaining_bu (r : bin_row) : Z :=
  Z.max 0 (Capacity_bu r - Bushels_in_bin r).

(** The three dashboard totals (line 122), summed exactly: pandas' float
    sums agree with them on whole bushels within [whole_range] whose sums
    stay in that range. *)
Definition total_capacity (l : list bin_row) : Z :=
  fold_right (fun r acc => Capacity_bu r + acc) 0 l.
Definition total_in_bins (l : list bin_row) : Z :=
  fold_right (fun r acc => Bushels_in_bin r + acc) 0 l.
Definition total_remaining (l : list bin_row) : Z :=
  fold_right (fun r acc => remaining_bu r + acc) 0 l.

(** [bin_setup["Variety"].fillna("")] *)
Definition fillna_empty (x : cell) : string :=
  match x with
  | CStr s => s
  | CNaN => ""
  end.

(** The bins offered by "Clear Variety on Empty Bins" (line 307): fill 0
    and a non-empty Variety field. *)
Definition empty_bins (l : list bin_row) : list bin_row :=
  filter (fun r => (Bushels_in_bin r =? 0)
                   && negb (String.eqb (fillna_empty (Variety r)) "")) l.

(* ------------------------------------------------------------------ *)
(** * Lemmas on [strip] *)

Lemma drop_space_suffix : forall l, exists p, l = p ++ drop_space l.
Proof.
  induction l as [|c r IH]; simpl.
  - exists []; reflexivity.
  - destruct (is_space c).
    + destruct IH as [p Hp]. exists (c :: p). simpl. now f_equal.
    + exists []; reflexivity.
Qed.

Lemma drop_space_head : forall l c t,
  drop_space l = c :: t -> is_space c = false.
Proof.
  induction l as [|a r IH]; simpl; intros c t H; [discriminate|].
  destruct (is_space a) eqn:E; [eauto|].
  injection H as <- _. exact E.
Qed.

Lemma drop_space_idem : forall l, drop_space (drop_space l) = drop_space l.
Proof.
  induction l as [|a r IH]; simpl; [reflexivity|].
  destruct (is_space a) eqn:E; [exact IH|]. simpl. now rewrite E.
Qed.

Lemma drop_space_nonspace : forall c t,
  is_space c = false -> drop_space (c :: t) = c :: t.
Proof. intros c t E. simpl. now rewrite E. Qed.

Lemma strip_list_idem : forall l,
  let sl := fun l => rev (drop_space (rev (drop_space l))) in
  sl (sl l) = sl l.
Proof.
  intros l sl. unfold sl.
  set (m := drop_space l).
  set (k := drop_space (rev m)).
  assert (Hk : drop_space (rev k) = rev k).
  { destruct (drop_space_suffix (rev m)) as [p Hp]. fold k in Hp.
    destruct (rev k) as [|c t] eqn:Erk; [reflexivity|].
    apply drop_space_nonspace.
    assert (Hm : m = rev k ++ rev p).
    { rewrite <- (rev_involutive m), Hp, rev_app_distr. reflexivity. }
    rewrite Erk in Hm. simpl in Hm.
    apply (drop_space_head l c (t ++ rev p)). exact Hm. }
  rewrite Hk, rev_involutive. unfold k. rewrite drop_space_idem. reflexivity.
Qed.

Lemma strip_idem : forall s, strip (strip s) = strip s.
Proof.
  intro s. unfold strip.
  rewrite list_ascii_of_string_of_list_ascii.
  f_equal. exact (strip_list_idem (list_ascii_of_string s)).
Qed.

(* ------------------------------------------------------------------ *)
(** * Lemmas on row lookup and update *)

Lemma bin_index_found : forall name l i,
  bin_index name l = Some i ->
  exists r, nth_error l i = Some r /\ Bin r = name.
Proof.
  intros name l. induction l as [|r rest IH]; simpl; intros i H; [discriminate|].
  destruct (String.eqb (Bin r) name) eqn:E.
  - injection H as <-. exists r. split; [reflexivity|]. now apply String.eqb_eq.
  - destruct (bin_index name rest) as [j|] eqn:Ej; simpl in H; [|discriminate].
    injection H as <-. simpl. now apply IH.
Qed.

Lemma nth_error_set_at_same : forall {A} i (f : A -> A) l r,
  nth_error l i = Some r -> nth_error (set_at i f l) i = Some (f r).
Proof.
  intros A i f. induction i as [|i IH]; intros [|x l] r H; simpl in *;
    try discriminate.
  - now injection H as ->.
  - now apply IH.
Qed.

Lemma nth_error_set_at_other : forall {A} i j (f : A -> A) l,
  i <> j -> nth_error (set_at i f l) j = nth_error l j.
Proof.
  intros A i. induction i as [|i IH]; intros j f [|x l] H; simpl; auto.
  - destruct j; [congruence|reflexivity].
  - destruct j; [reflexivity|]. simpl. apply IH. lia.
Qed.

Lemma length_set_at : forall {A} i (f : A -> A) l,
  length (set_at i f l) = length l.
Proof.
  intros A i f. induction i as [|i IH]; intros [|x l]; simpl; auto.
Qed.

Lemma Forall_set_at : forall {A} (P : A -> Prop) i f l,
  Forall P l ->
  (forall r, nth_error l i = Some r -> P r -> P (f r)) ->
  Forall P (set_at i f l).
Proof.
  intros A P i f. induction i as [|i IH]; intros [|x l] Hl Hf; simpl;
    [constructor | | constructor | ]; inversion Hl; subst.
  - constructor; [apply Hf|]; auto.
  - constructor; [|apply IH]; auto.
Qed.

Lemma set_at_ext : forall {A} i (f g : A -> A) l,
  (forall r, nth_error l i = Some r -> f r = g r) ->
  set_at i f l = set_at i g l.
Proof.
  intros A i f g. induction i as [|i IH]; intros [|x l] H; simpl; auto.
  - f_equal. now apply H.
  - f_equal. now apply IH.
Qed.

Lemma set_at_id : forall {A} i (f : A -> A) l,
  (forall r, nth_error l i = Some r -> f r = r) ->
  set_at i f l = l.
Proof.
  intros A i f. induction i as [|i IH]; intros [|x l] H; simpl; auto.
  - f_equal. now apply H.
  - f_equal. now apply IH.
Qed.

Lemma Forall_drop_at : forall {A} (P : A -> Prop) i l,
  Forall P l -> Forall P (drop_at i l).
Proof.
  intros A P i. induction i as [|i IH]; intros [|x l] Hl; simpl; auto;
    inversion Hl; subst; auto.
Qed.

Lemma Forall_nth : forall {A} (P : A -> Prop) l i r,
  Forall P l -> nth_error l i = Some r -> P r.
Proof.
  intros A P l i r Hl Hn. rewrite Forall_forall in Hl.
  apply Hl. eapply nth_error_In; eauto.
Qed.

(* ------------------------------------------------------------------ *)
(** * Shape of an accepted delivery *)

Lemma submit_delivery_accepted : forall ts bins log tr b v q nt r,
  submit_delivery ts bins log tr b v q nt = Some r ->
  dr_deliveries r <> log ->
  exists idx row,
    bin_index b bins = Some idx /\ nth_error bins idx = Some row /\
    b <> "" /\ 0 < q /\
    strip v = adopted_var (Variety row) v /\
    dr_deliveries r =
      log ++ [mk_delivery ts (strip tr) b (adopted_var (Variety row) v) q (strip nt)] /\
    dr_bins r =
      set_at idx (set_Bushels_in_bin
                    (Bushels_in_bin row
                     + accepted_amount (Capacity_bu row) (Bushels_in_bin row) q))
        (set_at idx (fun r0 => adopted_row r0 v) bins) /\
    dr_notices r =
      capacity_notices (Capacity_bu row) (Bushels_in_bin row) q
      ++ [NDelivered (accepted_amount (Capacity_bu row) (Bushels_in_bin row) q)
            (Bushels_in_bin row
             + accepted_amount (Capacity_bu row) (Bushels_in_bin row) q)].
Proof.
  intros ts bins log tr b v q nt r H Hlog.
  unfold submit_delivery in H.
  destruct (String.eqb b "" || (q <=? 0)) eqn:Eg.
  { injection H as <-. simpl in Hlog. congruence. }
  apply orb_false_iff in Eg as [Eb Eq].
  destruct (bin_index b bins) as [idx|] eqn:Ei; [|discriminate].
  destruct (nth_error bins idx) as [row|] eqn:En; [|discriminate].
  exists idx, row.
  assert (Hb : b <> "") by (intro; subst; discriminate).
  assert (Hq : 0 < q) by (apply Z.leb_gt; exact Eq).
  unfold adopted_var, adopted_row, capacity_notices, accepted_amount.
  destruct (String.eqb (variety_text (Variety row)) "") eqn:Ev.
  - rewrite String.eqb_refl in H. simpl in H.
    assert (Hid : set_at idx (fun r0 =>
               if String.eqb (variety_text (Variety r0)) "" then
                 set_Variety (CStr (strip v)) r0 else r0) bins
             = set_at idx (set_Variety (CStr (strip v))) bins).
    { apply set_at_ext. intros r0 Hr0. rewrite En in Hr0.
      injection Hr0 as <-. now rewrite Ev. }
    rewrite Hid.
    destruct (0 <? Capacity_bu row) eqn:Ec; simpl in H |- *.
    + destruct (Z.max 0 (Capacity_bu row - Bushels_in_bin row) <? q) eqn:Er;
        injection H as <-; simpl.
      * rewrite Z.min_r by (apply Z.ltb_lt in Er; lia).
        repeat split; auto.
      * rewrite Z.min_l by (apply Z.ltb_ge in Er; lia).
        repeat split; auto.
    + injection H as <-; simpl. repeat split; auto.
  - destruct (String.eqb (strip v) (variety_text (Variety row))) eqn:Em;
      simpl in H.
    2:{ injection H as <-. simpl in Hlog. congruence. }
    apply String.eqb_eq in Em.
    assert (Hid : set_at idx (fun r0 =>
               if String.eqb (variety_text (Variety r0)) "" then
                 set_Variety (CStr (strip v)) r0 else r0) bins = bins).
    { apply set_at_id. intros r0 Hr0. rewrite En in Hr0.
      injection Hr0 as <-. now rewrite Ev. }
    rewrite Hid.
    destruct (0 <? Capacity_bu row) eqn:Ec; simpl in H |- *.
    + destruct (Z.max 0 (Capacity_bu row - Bushels_in_bin row) <? q) eqn:Er;
        injection H as <-; simpl.
      * rewrite Z.min_r by (apply Z.ltb_lt in Er; lia).
        repeat split; auto.
      * rewrite Z.min_l by (apply Z.ltb_ge in Er; lia).
        repeat split; auto.
    + injection H as <-; simpl. repeat split; auto.
Qed.

Lemma adopted_row_Capacity_bu : forall row v,
  Capacity_bu (adopted_row row v) = Capacity_bu row.
Proof. intros. unfold adopted_row. now destruct (String.eqb _ _). Qed.

Lemma adopted_row_Bushels_in_bin : forall row v,
  Bushels_in_bin (adopted_row row v) = Bushels_in_bin row.
Proof. intros. unfold adopted_row. now destruct (String.eqb _ _). Qed.

(** Reading the bin row back after an accepted delivery. *)
Lemma submit_delivery_accepted_row : forall ts bins log tr b v q nt r,
  submit_delivery ts bins log tr b v q nt = Some r ->
  dr_deliveries r <> log ->
  exists idx row,
    bin_index b bins = Some idx /\ nth_error bins idx = Some row /\ 0 < q /\
    strip v = adopted_var (Variety row) v /\
    dr_deliveries r =
      log ++ [mk_delivery ts (strip tr) b (adopted_var (Variety row) v) q (strip nt)] /\
    nth_error (dr_bins r) idx =
      Some (set_Bushels_in_bin
              (Bushels_in_bin row
               + accepted_amount (Capacity_bu row) (Bushels_in_bin row) q)
              (adopted_row row v)) /\
    dr_notices r =
      capacity_notices (Capacity_bu row) (Bushels_in_bin row) q
      ++ [NDelivered (accepted_amount (Capacity_bu row) (Bushels_in_bin row) q)
            (Bushels_in_bin row
             + accepted_amount (Capacity_bu row) (Bushels_in_bin row) q)].
Proof.
  intros ts bins log tr b v q nt r H Hlog.
  destruct (submit_delivery_accepted _ _ _ _ _ _ _ _ _ H Hlog)
    as (idx & row & Ei & En & _ & Hq & Hv & Hd & Hb & Hn).
  exists idx, row. repeat split; auto.
  rewrite Hb. apply nth_error_set_at_same.
  exact (nth_error_set_at_same idx (fun r0 => adopted_row r0 v) bins row En).
Qed.

(** A delivery refused by the variety check (lines 226-227). *)
Lemma submit_delivery_mismatch : forall ts bins log tr b v q nt idx row,
  b <> "" -> 0 < q ->
  bin_index b bins = Some idx -> nth_error bins idx = Some row ->
  variety_text (Variety row) <> "" ->
  strip v <> variety_text (Variety row) ->
  submit_delivery ts bins log tr b v q nt =
    Some {| dr_bins := bins; dr_deliveries := log;
            dr_notices := [NErrorMix b (variety_text (Variety row)) (strip v)] |}.
Proof.
  intros ts bins log tr b v q nt idx row Hb Hq Ei En Hne Hmix.
  unfold submit_delivery.
  apply String.eqb_neq in Hb. rewrite Hb.
  replace (q <=? 0) with false by (symmetry; apply Z.leb_gt; lia).
  simpl. rewrite Ei, En.
  apply String.eqb_neq in Hne. rewrite Hne.
  apply String.eqb_neq in Hmix. rewrite Hmix. reflexivity.
Qed.

(** What a reload does to a row. *)
Lemma bin_index_reload : forall b bins,
  bin_index b (reload_bins bins) = bin_index b bins.
Proof.
  intros b bins. induction bins as [|x l IH]; simpl; [reflexivity|].
  rewrite IH. reflexivity.
Qed.

Lemma nth_error_reload : forall bins idx row,
  nth_error bins idx = Some row ->
  nth_error (reload_bins bins) idx =
    Some (set_Variety (load_variety (save_variety (Variety row))) row).
Proof.
  intros bins idx row H. unfold reload_bins. rewrite nth_error_map, H.
  reflexivity.
Qed.

(** A Variety written as an empty CSV field reads back as NaN, and the
    handler's [str(... or "")] renders it as ["nan"], not [""]. *)
Lemma reload_empty_variety_text : forall x,
  save_variety x = "" -> variety_text (load_variety (save_variety x)) = "nan".
Proof. intros x H. rewrite H. reflexivity. Qed.

(** After a reload, a bin whose Variety field is empty refuses every
    delivery whose variety is not ["nan"], as a mix with ["nan"]. *)
Lemma reload_empty_variety_rejects : forall ts bins log tr b v q nt idx row,
  b <> "" -> 0 < q ->
  bin_index b bins = Some idx -> nth_error bins idx = Some row ->
  save_variety (Variety row) = "" ->
  strip v <> "nan" ->
  submit_delivery ts (reload_bins bins) log tr b v q nt =
    Some {| dr_bins := reload_bins bins; dr_deliveries := log;
            dr_notices := [NErrorMix b "nan" (strip v)] |}.
Proof.
  intros ts bins log tr b v q nt idx row Hb Hq Ei En He Hv.
  pose proof (nth_error_reload _ _ _ En) as En'.
  pose proof (reload_empty_variety_text _ He) as Et.
  rewrite <- Et.
  apply (submit_delivery_mismatch ts (reload_bins bins) log tr b v q nt idx
           (set_Variety (load_variety (save_variety (Variety row))) row)); auto.
  - now rewrite bin_index_reload.
  - simpl. rewrite Et. discriminate.
  - simpl. now rewrite Et.
Qed.

(** For comparison: with the empty string held in memory, the first-fill
    rule of lines 221-224 does adopt the delivered variety. *)
Lemma first_fill_in_memory : forall ts bins log tr b v q nt idx row r,
  bin_index b bins = Some idx -> nth_error bins idx = Some row ->
  Variety row = CStr "" ->
  submit_delivery ts bins log tr b v q nt = Some r ->
  dr_deliveries r <> log ->
  exists row', nth_error (dr_bins r) idx = Some row' /\
               Variety row' = CStr (strip v).
Proof.
  intros ts bins log tr b v q nt idx row r Ei En Hv H Hlog.
  destruct (submit_delivery_accepted_row _ _ _ _ _ _ _ _ _ H Hlog)
    as (idx' & row' & Ei' & En' & _ & _ & _ & Hb & _).
  rewrite Ei in Ei'. injection Ei' as <-. rewrite En in En'. injection En' as <-.
  eexists. split; [exact Hb|]. unfold adopted_row. rewrite Hv. reflexivity.
Qed.

Lemma delivery_row_eq_dec : forall x y : delivery_row, {x = y} + {x <> y}.
Proof. decide equality; first [apply String.string_dec | apply Z.eq_dec]. Defined.

Lemma app_single_neq : forall {A} (l : list A) x, l ++ [x] <> l.
Proof.
  intros A l x H. apply (f_equal (@length A)) in H.
  rewrite length_app in H. simpl in H. lia.
Qed.

(** A delivery that appends nothing leaves the bin table as it was. *)
Lemma submit_delivery_rejected : forall ts bins log tr b v q nt r,
  submit_delivery ts bins log tr b v q nt = Some r ->
  dr_deliveries r = log -> dr_bins r = bins.
Proof.
  intros ts bins log tr b v q nt r H Hlog.
  unfold submit_delivery in H.
  destruct (String.eqb b "" || (q <=? 0)); [now injection H as <-|].
  destruct (bin_index b bins) as [idx|] eqn:Ei; [|discriminate].
  destruct (nth_error bins idx) as [row|] eqn:En; [|discriminate].
  destruct (String.eqb (variety_text (Variety row)) "") eqn:Ev.
  - rewrite String.eqb_refl in H. simpl in H.
    destruct (0 <? Capacity_bu row);
      [destruct (Z.max 0 (Capacity_bu row - Bushels_in_bin row) <? q)|];
      injection H as <-; simpl in Hlog; exfalso; eapply app_single_neq; eauto.
  - destruct (String.eqb (strip v) (variety_text (Variety row))); simpl in H.
    + destruct (0 <? Capacity_bu row);
        [destruct (Z.max 0 (Capacity_bu row - Bushels_in_bin row) <? q)|];
        injection H as <-; simpl in Hlog; exfalso; eapply app_single_neq; eauto.
    + now injection H as <-.
Qed.

Lemma submit_unload_shape : forall ts bins ul b d q nt r,
  submit_unload ts bins ul b d q nt = Some r ->
  ur_bins r = bins \/
  exists idx row,
    bin_index b bins = Some idx /\ nth_error bins idx = Some row /\ 0 < q /\
    ur_unloads r =
      ul ++ [mk_unload ts b (variety_text (Variety row))
               (Z.min q (Bushels_in_bin row)) (strip d) (strip nt)] /\
    ur_bins r =
      set_at idx (set_Bushels_in_bin
                    (Z.max 0 (Bushels_in_bin row - Z.min q (Bushels_in_bin row))))
        bins /\
    ur_notices r =
      (if Bushels_in_bin row <? q then [NWarnStock q (Bushels_in_bin row)] else [])
      ++ [NUnloaded (Z.min q (Bushels_in_bin row))
            (Z.max 0 (Bushels_in_bin row - Z.min q (Bushels_in_bin row)))].
Proof.
  intros ts bins ul b d q nt r H.
  unfold submit_unload in H.
  destruct (String.eqb b "" || (q <=? 0)) eqn:Eg; [left; now injection H as <-|].
  apply orb_false_iff in Eg as [_ Eq].
  destruct (bin_index b bins) as [idx|] eqn:Ei; [|discriminate].
  destruct (nth_error bins idx) as [row|] eqn:En; [|discriminate].
  right. exists idx, row.
  assert (Hq : 0 < q) by (apply Z.leb_gt; exact Eq).
  destruct (Bushels_in_bin row <? q) eqn:Ec; injection H as <-; simpl.
  - apply Z.ltb_lt in Ec. rewrite Z.min_r by lia. repeat split; auto.
  - apply Z.ltb_ge in Ec. rewrite Z.min_l by lia. repeat split; auto.
Qed.

(* ------------------------------------------------------------------ *)
(** * The per-bin bound, operation by operation *)

Lemma inv_delivery_row : forall row q v,
  0 < q -> inv_bin row ->
  inv_bin (set_Bushels_in_bin
             (Bushels_in_bin row
              + accepted_amount (Capacity_bu row) (Bushels_in_bin row) q)
             (adopted_row row v)).
Proof.
  intros row q v Hq [H0 H1]. unfold inv_bin, accepted_amount. simpl.
  rewrite adopted_row_Capacity_bu.
  destruct (0 <? Capacity_bu row) eqn:Ec.
  - apply Z.ltb_lt in Ec. split; [lia|]. right. lia.
  - apply Z.ltb_ge in Ec. split; [lia|]. left. lia.
Qed.

Lemma inv_submit_delivery : forall ts bins log tr b v q nt r,
  inv_bins bins ->
  submit_delivery ts bins log tr b v q nt = Some r ->
  inv_bins (dr_bins r).
Proof.
  intros ts bins log tr b v q nt r Hinv H.
  destruct (list_eq_dec delivery_row_eq_dec (dr_deliveries r) log) as [E|E].
  - now rewrite (submit_delivery_rejected _ _ _ _ _ _ _ _ _ H E).
  - destruct (submit_delivery_accepted _ _ _ _ _ _ _ _ _ H E)
      as (idx & row & _ & En & _ & Hq & _ & _ & Hb & _).
    rewrite Hb. apply Forall_set_at.
    + apply Forall_set_at; [exact Hinv|].
      intros r0 _ [H0 H1]. unfold inv_bin.
      rewrite adopted_row_Capacity_bu, adopted_row_Bushels_in_bin. auto.
    + intros r0 Hr0 _.
      rewrite (nth_error_set_at_same idx (fun r1 => adopted_row r1 v) bins row En)
        in Hr0.
      injection Hr0 as <-.
      replace (Bushels_in_bin (adopted_row row v)) with (Bushels_in_bin row)
        by (symmetry; apply adopted_row_Bushels_in_bin).
      replace (Capacity_bu (adopted_row row v)) with (Capacity_bu row)
        by (symmetry; apply adopted_row_Capacity_bu).
      replace (set_Bushels_in_bin _ (adopted_row row v))
        with (set_Bushels_in_bin
                (Bushels_in_bin row
                 + accepted_amount (Capacity_bu row) (Bushels_in_bin row) q)
                (adopted_row row v)) by reflexivity.
      apply inv_delivery_row; auto. exact (Forall_nth _ _ _ _ Hinv En).
Qed.

Lemma inv_submit_unload : forall ts bins ul b d q nt r,
  inv_bins bins ->
  submit_unload ts bins ul b d q nt = Some r ->
  inv_bins (ur_bins r).
Proof.
  intros ts bins ul b d q nt r Hinv H.
  destruct (submit_unload_shape _ _ _ _ _ _ _ _ H)
    as [-> | (idx & row & _ & En & Hq & _ & Hb & _)]; [exact Hinv|].
  rewrite Hb. apply Forall_set_at; [exact Hinv|].
  intros r0 Hr0 [H0 H1]. rewrite En in Hr0. injection Hr0 as <-.
  unfold inv_bin; simpl. split; [lia|].
  destruct H1 as [H1|H1]; [left; exact H1|right; lia].
Qed.

Lemma inv_submit_add_bin : forall bins n c v,
  inv_bins bins -> 0 <= c ->
  (forall idx row, bin_index n bins = Some idx -> nth_error bins idx = Some row ->
     c = 0 \/ Bushels_in_bin row <= c) ->
  inv_bins (fst (submit_add_bin bins n c v)).
Proof.
  intros bins n c v Hinv Hc Hedit. unfold submit_add_bin.
  destruct (String.eqb (strip n) ""); [exact Hinv|].
  destruct (bin_index n bins) as [idx|] eqn:Ei; simpl.
  - replace (0 <=? c) with true by (symmetry; apply Z.leb_le; exact Hc).
    apply Forall_set_at.
    + apply Forall_set_at; [exact Hinv|].
      intros r0 Hr0 [H0 _]. unfold inv_bin; simpl. split; [exact H0|].
      destruct (Hedit idx r0 eq_refl Hr0); auto.
    + intros r0 _ [H0 H1]. unfold inv_bin; simpl. auto.
  - apply Forall_app. split; [exact Hinv|].
    constructor; [|constructor]. unfold inv_bin; simpl. lia.
Qed.

Lemma inv_save_changes : forall bins sel n c v (rf : bool) bins' ns,
  inv_bins bins ->
  (forall idx row, bin_index sel bins = Some idx -> nth_error bins idx = Some row ->
     c = 0 \/ (if rf then 0 else Bushels_in_bin row) <= c) ->
  save_changes bins sel n c v rf = Some (bins', ns) ->
  inv_bins bins'.
Proof.
  intros bins sel n c v rf bins' ns Hinv Hedit H. unfold save_changes in H.
  destruct (String.eqb sel ""); [injection H as <- _; exact Hinv|].
  destruct (bin_index sel bins) as [idx|] eqn:Ei; [|discriminate].
  injection H as <- _. apply Forall_set_at; [exact Hinv|].
  intros r0 Hr0 [H0 _]. specialize (Hedit idx r0 eq_refl Hr0).
  unfold inv_bin. destruct rf; simpl in *; split; try lia; auto.
Qed.

Lemma inv_delete_bin : forall bins sel bins' ns,
  inv_bins bins -> delete_bin bins sel = Some (bins', ns) -> inv_bins bins'.
Proof.
  intros bins sel bins' ns Hinv H. unfold delete_bin in H.
  destruct (String.eqb sel ""); [injection H as <- _; exact Hinv|].
  destruct (bin_index sel bins); [|discriminate].
  injection H as <- _. now apply Forall_drop_at.
Qed.

Lemma inv_reset_bin_fill : forall bins,
  inv_bins bins -> inv_bins (fst (reset_bin_fill bins)).
Proof.
  intros bins Hinv. destruct bins as [|x l]; [constructor|]. simpl.
  unfold inv_bins in *. inversion Hinv as [|? ? Hx Hl]; subst.
  constructor.
  - destruct Hx as [H0 H1]. unfold inv_bin; simpl. split; [lia|].
    destruct H1; [left|right]; lia.
  - apply Forall_map. eapply Forall_impl; [|exact Hl].
    intros r [H0 H1]. unfold inv_bin; simpl. split; [lia|].
    destruct H1; [left|right]; lia.
Qed.

Lemma inv_clear_variety : forall bins n bins' ns,
  inv_bins bins -> clear_variety bins n = Some (bins', ns) -> inv_bins bins'.
Proof.
  intros bins n bins' ns Hinv H. unfold clear_variety in H.
  destruct (bin_index n bins); [|discriminate].
  injection H as <- _. apply Forall_set_at; [exact Hinv|].
  intros r0 _ Hr. exact Hr.
Qed.

(* ================================================================== *)
(** * The claims *)

(** C1 (amended).  For every accepted delivery the appended log row
    records the requested quantity [q] ("full requested amount for
    record", line 244), while the bin's fill grows by the accepted amount
    [min(q, max(0, capacity - fill))] (or [q] when capacity <= 0). *)
Theorem C1_delivery_logs_requested : forall ts bins log tr b v q nt r,
  submit_delivery ts bins log tr b v q nt = Some r ->
  dr_deliveries r <> log ->
  exists idx row row' e,
    bin_index b bins = Some idx /\ nth_error bins idx = Some row /\
    nth_error (dr_bins r) idx = Some row' /\
    dr_deliveries r = log ++ [e] /\ d_Bushels e = q /\
    Bushels_in_bin row' =
      Bushels_in_bin row + accepted_amount (Capacity_bu row) (Bushels_in_bin row) q.
Proof.
  intros ts bins log tr b v q nt r H Hlog.
  destruct (submit_delivery_accepted_row _ _ _ _ _ _ _ _ _ H Hlog)
    as (idx & row & Ei & En & _ & _ & Hd & Hb & _).
  do 4 eexists. repeat split; eauto.
Qed.

Lemma C1_witness :
  exists idx row row' e,
    bin_index "A" ex_bins = Some idx /\ nth_error ex_bins idx = Some row /\
    nth_error (dr_bins ex_run) idx = Some row' /\
    dr_deliveries ex_run = [] ++ [e] /\ d_Bushels e = 500 /\
    Bushels_in_bin row' =
      Bushels_in_bin row + accepted_amount (Capacity_bu row) (Bushels_in_bin row) 500.
Proof.
  apply (C1_delivery_logs_requested "t" ex_bins [] "T1" "A" "Wheat" 500 "" ex_run).
  - reflexivity.
  - discriminate.
Defined.

(** C1: the spec's scenario (600 bu of Wheat in A, capacity 1000, deliver
    500) adds 400 bu but logs 500. *)
Lemma C1_counterexample :
  ~ delivery_logs_added "t" ex_bins [] "T1" "A" "Wheat" 500 "".
Proof.
  intro H.
  specialize (H ex_run O (mk_bin "A" 1000 (CStr "Wheat") 600)
                (mk_bin "A" 1000 (CStr "Wheat") 1000)
                (mk_delivery "t" "T1" "A" "Wheat" 500 "")
                eq_refl eq_refl eq_refl eq_refl eq_refl).
  simpl in H. lia.
Qed.

(** C2 (amended).  On whole-bushel quantities of magnitude at most 2^52
    (where the script's float arithmetic is exact), deliveries, unloads,
    the fill reset, adding a new bin, deleting a bin and clearing a
    variety keep every bin within [0 <= fill] and ([capacity == 0] or
    [fill <= capacity]); a capacity edit does not look at the fill, so it
    keeps the bound only when the new capacity is 0 or at least the fill
    the bin keeps. *)
Theorem C2_step_preserves_bounds : forall s a s',
  whole_bins (bins s) -> action_whole a ->
  inv_bins (bins s) -> cap_edit_ok (bins s) a ->
  step s a = Some s' -> inv_bins (bins s').
Proof.
  intros s a s' _ _ Hinv Hok H.
  destruct a as [n c v | sel n c v rf | sel | ts tr b v q nt
                 | ts b d q nt | | n]; simpl in H, Hok.
  - injection H as <-. simpl. destruct Hok as [Hc Hed].
    now apply inv_submit_add_bin.
  - destruct (save_changes (bins s) sel n c v rf) as [[b' ns]|] eqn:E;
      [|discriminate].
    injection H as <-. simpl. eapply inv_save_changes; eauto.
  - destruct (delete_bin (bins s) sel) as [[b' ns]|] eqn:E; [|discriminate].
    injection H as <-. simpl. eapply inv_delete_bin; eauto.
  - destruct (submit_delivery ts (bins s) (delivs s) tr b v q nt) as [r|] eqn:E;
      [|discriminate].
    injection H as <-. simpl. eapply inv_submit_delivery; eauto.
  - destruct (submit_unload ts (bins s) (unlds s) b d q nt) as [r|] eqn:E;
      [|discriminate].
    injection H as <-. simpl. eapply inv_submit_unload; eauto.
  - injection H as <-. simpl. now apply inv_reset_bin_fill.
  - destruct (clear_variety (bins s) n) as [[b' ns]|] eqn:E; [|discriminate].
    injection H as <-. simpl. eapply inv_clear_variety; eauto.
Qed.

Lemma C2_witness :
  inv_bins ex_bins /\
  cap_edit_ok ex_bins (Deliver "t" "T1" "A" "Wheat" 500 "") /\
  inv_bins [mk_bin "A" 1000 (CStr "Wheat") 1000].
Proof.
  assert (H0 : inv_bins ex_bins).
  { constructor; [|constructor]. unfold inv_bin; simpl; lia. }
  split; [exact H0|]. split; [exact I|].
  assert (Hw : whole_bins ex_bins).
  { constructor; [|constructor]. unfold whole_range; simpl; lia. }
  assert (Ha : action_whole (Deliver "t" "T1" "A" "Wheat" 500 "")).
  { unfold action_whole, whole_range. lia. }
  exact (C2_step_preserves_bounds
           {| bins := ex_bins; delivs := []; unlds := [] |}
           (Deliver "t" "T1" "A" "Wheat" 500 "")
           {| bins := [mk_bin "A" 1000 (CStr "Wheat") 1000];
              delivs := [mk_delivery "t" "T1" "A" "Wheat" 500 ""];
              unlds := [] |}
           Hw Ha H0 I eq_refl).
Defined.

(** C2: re-submitting bin A (600 bu in a 1000 bu bin) through the
    "Add / Update Bin" form with capacity 100 leaves 600 bu in a 100 bu
    bin. *)
Lemma C2_counterexample :
  inv_bins ex_bins /\
  step {| bins := ex_bins; delivs := []; unlds := [] |} (AddBin "A" 100 "Wheat")
    = Some {| bins := [mk_bin "A" 100 (CStr "Wheat") 600]; delivs := []; unlds := [] |} /\
  ~ inv_bins [mk_bin "A" 100 (CStr "Wheat") 600].
Proof.
  split; [constructor; [unfold inv_bin; simpl; lia | constructor]|].
  split; [reflexivity|].
  intro H. inversion H as [|? ? [_ Hb] _]; subst. simpl in Hb. lia.
Qed.

(** C3 (confirmed).  Delivering into a bin whose assigned variety, as
    the handler reads and trims it, is non-empty and differs from the
    trimmed delivered variety fails with the mix error and returns the
    bin table and the delivery log unchanged. *)
Theorem C3_variety_mismatch_rejected : forall ts bins log tr b v q nt idx row,
  b <> "" -> 0 < q ->
  bin_index b bins = Some idx -> nth_error bins idx = Some row ->
  variety_text (Variety row) <> "" ->
  strip v <> variety_text (Variety row) ->
  submit_delivery ts bins log tr b v q nt =
    Some {| dr_bins := bins; dr_deliveries := log;
            dr_notices := [NErrorMix b (variety_text (Variety row)) (strip v)] |}.
Proof.
  intros. eapply submit_delivery_mismatch; eauto.
Qed.

Lemma C3_witness :
  submit_delivery "t" ex_bins [] "T1" "A" "Corn" 600 "" =
    Some {| dr_bins := ex_bins; dr_deliveries := [];
            dr_notices := [NErrorMix "A" "Wheat" "Corn"] |}.
Proof.
  apply (C3_variety_mismatch_rejected "t" ex_bins [] "T1" "A" "Corn" 600 "" O
           (mk_bin "A" 1000 (CStr "Wheat") 600)).
  - discriminate.
  - lia.
  - reflexivity.
  - reflexivity.
  - vm_compute. discriminate.
  - vm_compute. discriminate.
Defined.

(** C4 (amended).  On whole-bushel quantities of magnitude at most 2^52
    (where the script's float arithmetic is exact): for every accepted
    delivery into a bin with capacity
    > 0 whose quantity exceeds [remaining = max(0, capacity - fill)], the
    handler adds exactly [remaining], warns with the excess
    [q - remaining], and the fill becomes [max(fill, capacity)], which is
    the capacity whenever the fill did not already exceed it; when the
    capacity is <= 0 or the quantity fits, the full quantity is added
    with no warning. *)
Theorem C4_delivery_clamp : forall ts bins log tr b v q nt r,
  whole_bins bins -> whole_range q ->
  submit_delivery ts bins log tr b v q nt = Some r ->
  dr_deliveries r <> log ->
  exists idx row row',
    bin_index b bins = Some idx /\ nth_error bins idx = Some row /\
    nth_error (dr_bins r) idx = Some row' /\
    Capacity_bu row' = Capacity_bu row /\
    (0 < Capacity_bu row ->
     Z.max 0 (Capacity_bu row - Bushels_in_bin row) < q ->
     dr_notices r =
       [NWarnCapacity (q - Z.max 0 (Capacity_bu row - Bushels_in_bin row))
                      (Z.max 0 (Capacity_bu row - Bushels_in_bin row));
        NDelivered (Z.max 0 (Capacity_bu row - Bushels_in_bin row))
                   (Bushels_in_bin row')] /\
     Bushels_in_bin row' = Z.max (Bushels_in_bin row) (Capacity_bu row) /\
     (Bushels_in_bin row <= Capacity_bu row -> Bushels_in_bin row' = Capacity_bu row)) /\
    (Capacity_bu row <= 0 \/ q <= Z.max 0 (Capacity_bu row - Bushels_in_bin row) ->
     dr_notices r = [NDelivered q (Bushels_in_bin row')] /\
     Bushels_in_bin row' = Bushels_in_bin row + q).
Proof.
  intros ts bins log tr b v q nt r _ _ H Hlog.
  destruct (submit_delivery_accepted_row _ _ _ _ _ _ _ _ _ H Hlog)
    as (idx & row & Ei & En & Hq & _ & _ & Hb & Hn).
  exists idx, row. eexists. split; [exact Ei|]. split; [exact En|].
  split; [exact Hb|]. simpl. rewrite adopted_row_Capacity_bu.
  split; [reflexivity|].
  rewrite Hn. unfold capacity_notices, accepted_amount.
  split.
  - intros Hc Hr.
    rewrite (proj2 (Z.ltb_lt 0 _) Hc), (proj2 (Z.ltb_lt _ q) Hr). simpl.
    rewrite Z.min_r by lia.
    split; [reflexivity|]. split; [lia|]. intro. lia.
  - intros Hfit.
    destruct (0 <? Capacity_bu row) eqn:Ec; simpl.
    + apply Z.ltb_lt in Ec.
      destruct Hfit as [Hfit|Hfit]; [lia|].
      rewrite (proj2 (Z.ltb_ge _ q) Hfit). simpl.
      rewrite Z.min_l by lia. split; reflexivity.
    + split; reflexivity.
Qed.

Lemma C4_witness :
  exists idx row row',
    bin_index "A" ex_bins = Some idx /\ nth_error ex_bins idx = Some row /\
    nth_error (dr_bins ex_run) idx = Some row' /\
    Capacity_bu row' = Capacity_bu row /\
    (0 < Capacity_bu row ->
     Z.max 0 (Capacity_bu row - Bushels_in_bin row) < 500 ->
     dr_notices ex_run =
       [NWarnCapacity (500 - Z.max 0 (Capacity_bu row - Bushels_in_bin row))
                      (Z.max 0 (Capacity_bu row - Bushels_in_bin row));
        NDelivered (Z.max 0 (Capacity_bu row - Bushels_in_bin row))
                   (Bushels_in_bin row')] /\
     Bushels_in_bin row' = Z.max (Bushels_in_bin row) (Capacity_bu row) /\
     (Bushels_in_bin row <= Capacity_bu row -> Bushels_in_bin row' = Capacity_bu row)) /\
    (Capacity_bu row <= 0 \/ 500 <= Z.max 0 (Capacity_bu row - Bushels_in_bin row) ->
     dr_notices ex_run = [NDelivered 500 (Bushels_in_bin row')] /\
     Bushels_in_bin row' = Bushels_in_bin row + 500).
Proof.
  apply (C4_delivery_clamp "t" ex_bins [] "T1" "A" "Wheat" 500 "" ex_run).
  - constructor; [|constructor]. unfold whole_range; simpl; lia.
  - unfold whole_range; lia.
  - reflexivity.
  - discriminate.
Defined.

(** C4: a bin edited down to capacity 100 while holding 600 bu ("Save
    Changes" does not check the fill); a 50 bu delivery is clamped to 0
    and the fill stays 600, not the capacity. *)
Lemma C4_counterexample :
  save_changes ex_bins "A" "A" 100 "Wheat" false =
    Some ([mk_bin "A" 100 (CStr "Wheat") 600], [NSaved]) /\
  ~ clamp_reaches_capacity "t" [mk_bin "A" 100 (CStr "Wheat") 600] []
      "T1" "A" "Wheat" 50 "".
Proof.
  split; [reflexivity|].
  intro H.
  specialize (H {| dr_bins := [mk_bin "A" 100 (CStr "Wheat") 600];
                   dr_deliveries := [mk_delivery "t" "T1" "A" "Wheat" 50 ""];
                   dr_notices := [NWarnCapacity 50 0; NDelivered 0 600] |}
                O (mk_bin "A" 100 (CStr "Wheat") 600)
                (mk_bin "A" 100 (CStr "Wheat") 600)
                eq_refl ltac:(discriminate) eq_refl eq_refl eq_refl).
  simpl in H. lia.
Qed.

(** C5 (confirmed).  An unload of [q > 0] from a bin takes
    [min(q, fill)], leaves fill [max(0, fill - taken)] >= 0, and keeps
    the bin's variety and capacity; when [q] exceeds the fill it takes
    exactly the fill, warns about insufficient stock and empties the bin,
    whose variety stays assigned. *)
Theorem C5_unload_clamp : forall ts bins ul b d q nt idx row,
  b <> "" -> 0 < q ->
  bin_index b bins = Some idx -> nth_error bins idx = Some row ->
  exists r row' e,
    submit_unload ts bins ul b d q nt = Some r /\
    nth_error (ur_bins r) idx = Some row' /\
    ur_unloads r = ul ++ [e] /\
    u_Bushels e = Z.min q (Bushels_in_bin row) /\
    Bushels_in_bin row' = Z.max 0 (Bushels_in_bin row - Z.min q (Bushels_in_bin row)) /\
    0 <= Bushels_in_bin row' /\
    Variety row' = Variety row /\ Capacity_bu row' = Capacity_bu row /\
    (Bushels_in_bin row < q ->
       u_Bushels e = Bushels_in_bin row /\ Bushels_in_bin row' = 0 /\
       ur_notices r = [NWarnStock q (Bushels_in_bin row);
                       NUnloaded (Bushels_in_bin row) 0]) /\
    (q <= Bushels_in_bin row ->
       ur_notices r = [NUnloaded q (Bushels_in_bin row')]).
Proof.
  intros ts bins ul b d q nt idx row Hb Hq Ei En.
  unfold submit_unload.
  apply String.eqb_neq in Hb. rewrite Hb.
  replace (q <=? 0) with false by (symmetry; apply Z.leb_gt; lia).
  simpl. rewrite Ei, En.
  destruct (Bushels_in_bin row <? q) eqn:Ec.
  - apply Z.ltb_lt in Ec.
    do 3 eexists. split; [reflexivity|].
    split; [apply nth_error_set_at_same; exact En|].
    simpl. split; [reflexivity|].
    rewrite Z.min_r by lia.
    repeat split; try reflexivity; try lia.
    rewrite Z.sub_diag. reflexivity.
  - apply Z.ltb_ge in Ec.
    do 3 eexists. split; [reflexivity|].
    split; [apply nth_error_set_at_same; exact En|].
    simpl. split; [reflexivity|].
    rewrite Z.min_l by lia.
    repeat split; try reflexivity; try lia.
Qed.

Lemma C5_witness :
  exists r row' e,
    submit_unload "t" [mk_bin "A" 1000 (CStr "Wheat") 1000] [] "A" "Elevator" 1200 ""
      = Some r /\
    nth_error (ur_bins r) O = Some row' /\
    ur_unloads r = [] ++ [e] /\
    u_Bushels e = Z.min 1200 1000 /\
    Bushels_in_bin row' = Z.max 0 (1000 - Z.min 1200 1000) /\
    0 <= Bushels_in_bin row' /\
    Variety row' = CStr "Wheat" /\ Capacity_bu row' = 1000 /\
    (1000 < 1200 ->
       u_Bushels e = 1000 /\ Bushels_in_bin row' = 0 /\
       ur_notices r = [NWarnStock 1200 1000; NUnloaded 1000 0]) /\
    (1200 <= 1000 -> ur_notices r = [NUnloaded 1200 (Bushels_in_bin row')]).
Proof.
  apply (C5_unload_clamp "t" [mk_bin "A" 1000 (CStr "Wheat") 1000] [] "A" "Elevator"
           1200 "" O (mk_bin "A" 1000 (CStr "Wheat") 1000)).
  - discriminate.
  - lia.
  - reflexivity.
  - reflexivity.
Defined.

(** C6 (code_bug).  The first-fill rule of lines 220-224 tests
    [str(Variety or "").strip() == ""].  A bin whose variety is empty is
    written to bin_setup.csv as an empty field and read back at the start
    of the next run as NaN, which that test renders as ["nan"].  Every
    delivery of a variety other than ["nan"] into such a bin is therefore
    refused as a mix with ["nan"], and the bin's variety is not set.
    (Stated for a table whose columns read back as text, where
    [reload_bins] is the script's reload.) *)
Theorem C6_unassigned_bin_refuses_after_reload : forall ts bins log tr b v q nt idx row,
  csv_text_table bins = true ->
  b <> "" -> 0 < q ->
  bin_index b bins = Some idx -> nth_error bins idx = Some row ->
  save_variety (Variety row) = "" ->
  strip v <> "nan" ->
  submit_delivery ts (reload_bins bins) log tr b v q nt =
    Some {| dr_bins := reload_bins bins; dr_deliveries := log;
            dr_notices := [NErrorMix b "nan" (strip v)] |}.
Proof.
  intros ts bins log tr b v q nt idx row _ Hb Hq Ei En He Hv.
  eapply reload_empty_variety_rejects; eauto.
Qed.

Lemma C6_witness :
  submit_delivery "t" (reload_bins ex_unassigned) [] "T1" "A" "Wheat" 600 "" =
    Some {| dr_bins := [mk_bin "A" 1000 CNaN 0]; dr_deliveries := [];
            dr_notices := [NErrorMix "A" "nan" "Wheat"] |}.
Proof.
  apply (C6_unassigned_bin_refuses_after_reload "t" ex_unassigned [] "T1" "A" "Wheat"
           600 "" O (mk_bin "A" 1000 (CStr "") 0)).
  - vm_compute. reflexivity.
  - discriminate.
  - lia.
  - reflexivity.
  - reflexivity.
  - reflexivity.
  - vm_compute. discriminate.
Defined.

(** C7 (amended).  Submitting the "Add / Update Bin" form with a name
    that equals (as typed) an existing bin's name updates the first such
    bin in place: its capacity becomes the entered value and its variety
    the trimmed entered variety, its name and fill are kept, no row is
    added and every other row is unchanged. *)
Theorem C7_add_existing_updates : forall bins n c v idx row,
  strip n <> "" -> 0 <= c ->
  bin_index n bins = Some idx -> nth_error bins idx = Some row ->
  snd (submit_add_bin bins n c v) = [NUpdated n] /\
  length (fst (submit_add_bin bins n c v)) = length bins /\
  nth_error (fst (submit_add_bin bins n c v)) idx =
    Some (mk_bin (Bin row) c (CStr (strip v)) (Bushels_in_bin row)) /\
  (forall j, j <> idx ->
     nth_error (fst (submit_add_bin bins n c v)) j = nth_error bins j).
Proof.
  intros bins n c v idx row Hn Hc Ei En.
  unfold submit_add_bin.
  apply String.eqb_neq in Hn. rewrite Hn, Ei.
  replace (0 <=? c) with true by (symmetry; apply Z.leb_le; exact Hc).
  simpl. split; [reflexivity|].
  split; [now rewrite !length_set_at|].
  split.
  - rewrite (nth_error_set_at_same idx (set_Variety (CStr (strip v))) _
               (set_Capacity_bu c row)); [reflexivity|].
    exact (nth_error_set_at_same idx (set_Capacity_bu c) bins row En).
  - intros j Hj. rewrite !nth_error_set_at_other by auto. reflexivity.
Qed.

Lemma C7_witness :
  snd (submit_add_bin ex_bins "A" 500 "Corn") = [NUpdated "A"] /\
  length (fst (submit_add_bin ex_bins "A" 500 "Corn")) = length ex_bins /\
  nth_error (fst (submit_add_bin ex_bins "A" 500 "Corn")) O =
    Some (mk_bin "A" 500 (CStr "Corn") 600) /\
  (forall j, j <> O ->
     nth_error (fst (submit_add_bin ex_bins "A" 500 "Corn")) j = nth_error ex_bins j).
Proof.
  apply (C7_add_existing_updates ex_bins "A" 500 "Corn" O
           (mk_bin "A" 1000 (CStr "Wheat") 600)).
  - vm_compute. discriminate.
  - lia.
  - reflexivity.
  - reflexivity.
Defined.

(** C7: adding "A" again raises no duplicate error and overwrites A's
    capacity and variety. *)
Lemma C7_counterexample :
  submit_add_bin ex_bins "A" 500 "Corn" =
    ([mk_bin "A" 500 (CStr "Corn") 600], [NUpdated "A"]) /\
  fst (submit_add_bin ex_bins "A" 500 "Corn") <> ex_bins.
Proof.
  split; [reflexivity|]. vm_compute. intro H. injection H. lia.
Qed.

(** C8 (amended).  "Delete Bin" removes the selected bin whatever its
    fill: the row is dropped and the table shrinks by one. *)
Theorem C8_delete_ignores_fill : forall bins sel idx row,
  sel <> "" ->
  bin_index sel bins = Some idx -> nth_error bins idx = Some row ->
  delete_bin bins sel = Some (drop_at idx bins, [NDeleted]) /\
  length (drop_at idx bins) = pred (length bins).
Proof.
  intros bins sel idx row Hs Ei En.
  unfold delete_bin. apply String.eqb_neq in Hs. rewrite Hs, Ei.
  split; [reflexivity|].
  clear Ei. revert idx En. induction bins as [|x l IH]; intros idx En.
  - destruct idx; discriminate.
  - destruct idx as [|idx]; simpl; [reflexivity|].
    simpl in En. rewrite (IH idx En).
    destruct l; [destruct idx; discriminate|]. reflexivity.
Qed.

Lemma C8_witness :
  delete_bin ex_bins "A" = Some (drop_at O ex_bins, [NDeleted]) /\
  length (drop_at O ex_bins) = pred (length ex_bins).
Proof.
  apply (C8_delete_ignores_fill ex_bins "A" O (mk_bin "A" 1000 (CStr "Wheat") 600)).
  - discriminate.
  - reflexivity.
  - reflexivity.
Defined.

(** C8: bin A holding 600 bu is deleted, not refused. *)
Lemma C8_counterexample :
  Bushels_in_bin (mk_bin "A" 1000 (CStr "Wheat") 600) > 0 /\
  delete_bin ex_bins "A" = Some ([], [NDeleted]).
Proof. split; [simpl; lia | reflexivity]. Qed.

(** C9 (code_bug, same defect as C6).  A delivery whose variety trims
    to empty into a bin whose variety is empty is, after the reload that
    starts every run, refused as a mix with ["nan"]: nothing is added.
    (Stated for a table whose columns read back as text, where
    [reload_bins] is the script's reload.) *)
Theorem C9_empty_variety_refused_after_reload : forall ts bins log tr b v q nt idx row,
  csv_text_table bins = true ->
  b <> "" -> 0 < q ->
  bin_index b bins = Some idx -> nth_error bins idx = Some row ->
  save_variety (Variety row) = "" ->
  strip v = "" ->
  submit_delivery ts (reload_bins bins) log tr b v q nt =
    Some {| dr_bins := reload_bins bins; dr_deliveries := log;
            dr_notices := [NErrorMix b "nan" ""] |}.
Proof.
  intros ts bins log tr b v q nt idx row _ Hb Hq Ei En He Hv.
  assert (Hn : strip v <> "nan") by (rewrite Hv; discriminate).
  pose proof (reload_empty_variety_rejects ts bins log tr b v q nt idx row
                Hb Hq Ei En He Hn) as E.
  rewrite Hv in E. exact E.
Qed.

Lemma C9_witness :
  submit_delivery "t" (reload_bins ex_unassigned) [] "T1" "A" "  " 600 "" =
    Some {| dr_bins := [mk_bin "A" 1000 CNaN 0]; dr_deliveries := [];
            dr_notices := [NErrorMix "A" "nan" ""] |}.
Proof.
  apply (C9_empty_variety_refused_after_reload "t" ex_unassigned [] "T1" "A" "  "
           600 "" O (mk_bin "A" 1000 (CStr "") 0)).
  - vm_compute. reflexivity.
  - discriminate.
  - lia.
  - reflexivity.
  - reflexivity.
  - reflexivity.
  - reflexivity.
Defined.

(** C10 (confirmed).  For every accepted delivery the Variety written to
    the log row is the bin's variety after the operation, as the handler
    reads it ([str(... or "").strip()]), and equals the trimmed delivered
    variety. *)
Theorem C10_delivery_logs_bin_variety : forall ts bins log tr b v q nt r,
  submit_delivery ts bins log tr b v q nt = Some r ->
  dr_deliveries r <> log ->
  exists idx row' e,
    bin_index b bins = Some idx /\
    nth_error (dr_bins r) idx = Some row' /\
    dr_deliveries r = log ++ [e] /\
    d_Variety e = variety_text (Variety row') /\
    d_Variety e = strip v.
Proof.
  intros ts bins log tr b v q nt r H Hlog.
  destruct (submit_delivery_accepted_row _ _ _ _ _ _ _ _ _ H Hlog)
    as (idx & row & Ei & En & _ & Hv & Hd & Hb & _).
  do 3 eexists. split; [exact Ei|]. split; [exact Hb|]. split; [exact Hd|].
  simpl. split; [|symmetry; exact Hv].
  unfold adopted_var, adopted_row in *.
  destruct (String.eqb (variety_text (Variety row)) "") eqn:Ev; [|reflexivity].
  simpl. unfold variety_text. simpl.
  destruct (String.eqb (strip v) "") eqn:Es; simpl.
  - apply String.eqb_eq in Es. rewrite Es. reflexivity.
  - symmetry. apply strip_idem.
Qed.

Lemma C10_witness :
  exists idx row' e,
    bin_index "A" ex_bins = Some idx /\
    nth_error (dr_bins ex_run) idx = Some row' /\
    dr_deliveries ex_run = [] ++ [e] /\
    d_Variety e = variety_text (Variety row') /\
    d_Variety e = strip "Wheat".
Proof.
  apply (C10_delivery_logs_bin_variety "t" ex_bins [] "T1" "A" "Wheat" 500 "" ex_run).
  - reflexivity.
  - discriminate.
Defined.

(* ================================================================== *)
(** * Further properties of the script *)

Lemma reload_cell_idem : forall x,
  load_variety (save_variety (load_variety (save_variety x)))
  = load_variety (save_variety x).
Proof.
  intro x. generalize (save_variety x) as s. intro s.
  unfold load_variety.
  destruct (existsb (String.eqb s) na_fields) eqn:E; unfold save_variety;
    [reflexivity|now rewrite E].
Qed.

Lemma save_load_variety : forall s,
  save_variety (load_variety s) = if is_na s then "" else s.
Proof.
  intro s. unfold load_variety, is_na.
  destruct (existsb (String.eqb s) na_fields); reflexivity.
Qed.

Lemma text_value_not_na : forall s, text_value s = true -> is_na s = false.
Proof.
  intros s H. unfold text_value in H.
  destruct (is_na s); [discriminate|reflexivity].
Qed.

Lemma map_Bin_reload : forall l, map Bin (reload_bins l) = map Bin l.
Proof.
  intro l. unfold reload_bins. rewrite map_map. apply map_ext. reflexivity.
Qed.

Lemma forallb_Bin_reload : forall (f : string -> bool) l,
  forallb (fun r => f (Bin r)) (reload_bins l) = forallb (fun r => f (Bin r)) l.
Proof.
  intros f l. induction l as [|x l IH]; [reflexivity|]. simpl. now rewrite IH.
Qed.

Lemma saved_varieties_reload : forall l,
  map (fun r => save_variety (Variety r)) (reload_bins l)
  = map (fun s => if is_na s then "" else s)
        (map (fun r => save_variety (Variety r)) l).
Proof.
  intro l. unfold reload_bins. rewrite !map_map. apply map_ext.
  intro r. simpl. apply save_load_variety.
Qed.

Lemma variety_column_reload : forall vs,
  forallb is_na vs || existsb text_value vs = true ->
  forallb is_na (map (fun s => if is_na s then "" else s) vs)
  || existsb text_value (map (fun s => if is_na s then "" else s) vs) = true.
Proof.
  intros vs H. apply orb_true_iff in H as [H|H]; apply orb_true_iff.
  - left. induction vs as [|s vs IH]; [reflexivity|].
    simpl in H |- *. apply andb_true_iff in H as [Hs Hvs].
    rewrite Hs. simpl. now apply IH.
  - right. induction vs as [|s vs IH]; [discriminate|].
    simpl in H |- *. apply orb_true_iff in H as [Hs|Hvs].
    + rewrite (text_value_not_na s Hs), Hs. reflexivity.
    + rewrite (IH Hvs). apply orb_true_r.
Qed.

(** Saving the bin table and loading it again is a fixed point: a table
    whose columns read back as text still does after the reload, and
    another save and load reproduces it. *)
Theorem reload_bins_idem : forall l,
  csv_text_table l = true ->
  csv_text_table (reload_bins l) = true /\ reload_bins (reload_bins l) = reload_bins l.
Proof.
  intros l H. split.
  - unfold csv_text_table in *. rewrite map_Bin_reload.
    rewrite (forallb_Bin_reload (fun b => negb (is_na b))).
    rewrite saved_varieties_reload.
    apply andb_true_iff in H as [H12 H3]. rewrite H12. simpl.
    now apply variety_column_reload.
  - unfold reload_bins. rewrite map_map. apply map_ext.
    intro r. unfold set_Variety. simpl. now rewrite reload_cell_idem.
Qed.

Lemma reload_bins_idem_witness :
  csv_text_table (reload_bins [mk_bin "A" 1000 (CStr "Wheat") 600; mk_bin "B" 500 (CStr "") 0])
    = true /\
  reload_bins (reload_bins [mk_bin "A" 1000 (CStr "Wheat") 600; mk_bin "B" 500 (CStr "") 0])
    = reload_bins [mk_bin "A" 1000 (CStr "Wheat") 600; mk_bin "B" 500 (CStr "") 0].
Proof.
  apply reload_bins_idem. vm_compute. reflexivity.
Defined.

(** Cell by cell, as in a text column: the handler reads a Variety back
    unchanged, except one whose text is a missing-value marker ("", "NA",
    "None", "null", "nan", ...), which it reads as "nan". *)
Theorem reload_variety_text : forall x,
  variety_text (load_variety (save_variety x)) =
    if existsb (String.eqb (save_variety x)) na_fields then "nan"
    else variety_text x.
Proof.
  intros [s|]; unfold load_variety, save_variety.
  - destruct (existsb (String.eqb s) na_fields); reflexivity.
  - reflexivity.
Qed.

(** Generalises [reload_empty_variety_rejects] to every missing-value
    marker. *)
Lemma reload_na_variety_rejects : forall ts bins log tr b v q nt idx row,
  b <> "" -> 0 < q ->
  bin_index b bins = Some idx -> nth_error bins idx = Some row ->
  existsb (String.eqb (save_variety (Variety row))) na_fields = true ->
  strip v <> "nan" ->
  submit_delivery ts (reload_bins bins) log tr b v q nt =
    Some {| dr_bins := reload_bins bins; dr_deliveries := log;
            dr_notices := [NErrorMix b "nan" (strip v)] |}.
Proof.
  intros ts bins log tr b v q nt idx row Hb Hq Ei En He Hv.
  pose proof (nth_error_reload _ _ _ En) as En'.
  assert (Et : variety_text (load_variety (save_variety (Variety row))) = "nan")
    by (rewrite reload_variety_text, He; reflexivity).
  rewrite <- Et.
  apply (submit_delivery_mismatch ts (reload_bins bins) log tr b v q nt idx
           (set_Variety (load_variety (save_variety (Variety row))) row)); auto.
  - now rewrite bin_index_reload.
  - simpl. rewrite Et. discriminate.
  - simpl. now rewrite Et.
Qed.

(** A bin whose variety is named like a missing-value marker (e.g. "NA"
    or "None") refuses, from the next run on, deliveries of that very
    variety, as a mix with "nan". *)
Theorem na_named_variety_refuses_itself : forall ts bins log tr b q nt idx row s,
  csv_text_table bins = true ->
  b <> "" -> 0 < q ->
  bin_index b bins = Some idx -> nth_error bins idx = Some row ->
  Variety row = CStr s -> In s na_fields -> s <> "nan" ->
  submit_delivery ts (reload_bins bins) log tr b s q nt =
    Some {| dr_bins := reload_bins bins; dr_deliveries := log;
            dr_notices := [NErrorMix b "nan" (strip s)] |}.
Proof.
  intros ts bins log tr b q nt idx row s _ Hb Hq Ei En Hv Hin Hn.
  apply (reload_na_variety_rejects ts bins log tr b s q nt idx row); auto.
  - rewrite Hv. unfold save_variety. apply existsb_exists. exists s.
    split; [exact Hin|]. apply String.eqb_refl.
  - simpl in Hin.
    repeat (destruct Hin as [<-|Hin]; [vm_compute; try discriminate; congruence|]).
    destruct Hin.
Qed.

Lemma na_named_variety_refuses_itself_witness :
  submit_delivery "t" (reload_bins [mk_bin "A" 1000 (CStr "NA") 600]) []
    "T1" "A" "NA" 100 "" =
    Some {| dr_bins := [mk_bin "A" 1000 CNaN 600]; dr_deliveries := [];
            dr_notices := [NErrorMix "A" "nan" "NA"] |}.
Proof.
  apply (na_named_variety_refuses_itself "t" [mk_bin "A" 1000 (CStr "NA") 600] []
           "T1" "A" 100 "" O (mk_bin "A" 1000 (CStr "NA") 600) "NA").
  - vm_compute. reflexivity.
  - discriminate.
  - lia.
  - reflexivity.
  - reflexivity.
  - reflexivity.
  - simpl. tauto.
  - discriminate.
Defined.


Lemma bin_index_set_at : forall n i f l,
  (forall r, Bin (f r) = Bin r) ->
  bin_index n (set_at i f l) = bin_index n l.
Proof.
  intros n i f l Hf. revert i.
  induction l as [|x l IH]; intros [|i]; simpl; auto.
  - now rewrite Hf.
  - now rewrite IH.
Qed.

Lemma adopted_row_Bin : forall row v, Bin (adopted_row row v) = Bin row.
Proof. intros. unfold adopted_row. now destruct (String.eqb _ _). Qed.

Lemma accepted_amount_nonneg : forall cap cur q,
  0 < q -> 0 <= accepted_amount cap cur q.
Proof.
  intros. unfold accepted_amount. destruct (0 <? cap); lia.
Qed.

(** After an accepted delivery, the bin is found at the same row. *)
Lemma submit_delivery_same_index : forall ts bins log tr b v q nt r idx,
  submit_delivery ts bins log tr b v q nt = Some r ->
  bin_index b bins = Some idx -> bin_index b (dr_bins r) = Some idx.
Proof.
  intros ts bins log tr b v q nt r idx H Ei.
  destruct (list_eq_dec delivery_row_eq_dec (dr_deliveries r) log) as [E|E].
  - now rewrite (submit_delivery_rejected _ _ _ _ _ _ _ _ _ H E).
  - destruct (submit_delivery_accepted _ _ _ _ _ _ _ _ _ H E)
      as (i & row & _ & _ & _ & _ & _ & _ & Hb & _).
    rewrite Hb, bin_index_set_at by reflexivity.
    rewrite (bin_index_set_at b i (fun r0 => adopted_row r0 v) bins
               (fun r0 => adopted_row_Bin r0 v)).
    exact Ei.
Qed.

(** Unloading exactly the amount an accepted delivery added to a bin
    brings its fill back to what it was before the delivery. *)
Theorem deliver_then_unload_restores : forall ts bins log tr b v q nt r
                                            ts2 ul d nt2 u idx row row2,
  submit_delivery ts bins log tr b v q nt = Some r ->
  dr_deliveries r <> log ->
  bin_index b bins = Some idx -> nth_error bins idx = Some row ->
  whole_range (Capacity_bu row) -> whole_range (Bushels_in_bin row) -> whole_range q ->
  0 <= Bushels_in_bin row ->
  submit_unload ts2 (dr_bins r) ul b d
    (accepted_amount (Capacity_bu row) (Bushels_in_bin row) q) nt2 = Some u ->
  nth_error (ur_bins u) idx = Some row2 ->
  Bushels_in_bin row2 = Bushels_in_bin row.
Proof.
  intros ts bins log tr b v q nt r ts2 ul d nt2 u idx row row2
         H Hlog Ei En _ _ _ Hf Hu En2.
  pose proof (submit_delivery_same_index _ _ _ _ _ _ _ _ _ _ H Ei) as Ei'.
  destruct (submit_delivery_accepted _ _ _ _ _ _ _ _ _ H Hlog)
    as (i & row0 & Ei0 & En0 & Hbn & Hq & _ & _ & Hb & _).
  rewrite Ei in Ei0. injection Ei0 as <-. rewrite En in En0. injection En0 as <-.
  pose proof (accepted_amount_nonneg (Capacity_bu row) (Bushels_in_bin row) q Hq)
    as Ha.
  set (a := accepted_amount (Capacity_bu row) (Bushels_in_bin row) q) in *.
  set (row1 := set_Bushels_in_bin (Bushels_in_bin row + a) (adopted_row row v)).
  assert (En1 : nth_error (dr_bins r) idx = Some row1).
  { rewrite Hb. apply nth_error_set_at_same.
    exact (nth_error_set_at_same idx (fun r0 => adopted_row r0 v) bins row En). }
  assert (Hf1 : Bushels_in_bin row1 = Bushels_in_bin row + a)
    by (unfold row1; reflexivity).
  unfold submit_unload in Hu.
  destruct (String.eqb b "" || (a <=? 0)) eqn:Eg.
  - injection Hu as <-. simpl in En2. rewrite En1 in En2. injection En2 as <-.
    apply orb_true_iff in Eg as [Eg|Eg].
    + apply String.eqb_eq in Eg. contradiction.
    + apply Z.leb_le in Eg. lia.
  - rewrite Ei', En1 in Hu.
    destruct (Bushels_in_bin row1 <? a) eqn:Ec; injection Hu as <-; simpl in En2;
      rewrite (nth_error_set_at_same idx _ _ row1 En1) in En2;
      injection En2 as <-; simpl; rewrite Hf1 in *.
    + apply Z.ltb_lt in Ec. lia.
    + lia.
Qed.

Lemma deliver_then_unload_restores_witness :
  Bushels_in_bin (mk_bin "A" 1000 (CStr "Wheat") 600)
  = Bushels_in_bin (mk_bin "A" 1000 (CStr "Wheat") 600).
Proof.
  apply (deliver_then_unload_restores "t" ex_bins [] "T1" "A" "Wheat" 500 "" ex_run
           "t2" [] "Elevator" ""
           {| ur_bins := [mk_bin "A" 1000 (CStr "Wheat") 600];
              ur_unloads := [mk_unload "t2" "A" "Wheat" 400 "Elevator" ""];
              ur_notices := [NUnloaded 400 600] |}
           O (mk_bin "A" 1000 (CStr "Wheat") 600) (mk_bin "A" 1000 (CStr "Wheat") 600)).
  - reflexivity.
  - discriminate.
  - reflexivity.
  - reflexivity.
  - unfold whole_range; simpl; lia.
  - unfold whole_range; simpl; lia.
  - unfold whole_range; lia.
  - simpl. lia.
  - reflexivity.
  - reflexivity.
Defined.

(** Unloading from an empty bin changes no bin but still appends an
    unload record of 0 bushels, with an insufficient-stock warning. *)
Theorem unload_from_empty_bin : forall ts bins ul b d q nt idx row,
  b <> "" -> 0 < q ->
  bin_index b bins = Some idx -> nth_error bins idx = Some row ->
  Bushels_in_bin row = 0 ->
  submit_unload ts bins ul b d q nt =
    Some {| ur_bins := bins;
            ur_unloads := ul ++ [mk_unload ts b (variety_text (Variety row)) 0
                                   (strip d) (strip nt)];
            ur_notices := [NWarnStock q 0; NUnloaded 0 0] |}.
Proof.
  intros ts bins ul b d q nt idx row Hb Hq Ei En H0.
  unfold submit_unload.
  apply String.eqb_neq in Hb. rewrite Hb.
  replace (q <=? 0) with false by (symmetry; apply Z.leb_gt; lia).
  simpl. rewrite Ei, En, H0.
  replace (0 <? q) with true by (symmetry; apply Z.ltb_lt; exact Hq).
  rewrite set_at_id; [reflexivity|].
  intros r Hr. rewrite En in Hr. injection Hr as <-.
  destruct row as [n c x f]; simpl in *. now subst.
Qed.

Lemma unload_from_empty_bin_witness :
  submit_unload "t" [mk_bin "A" 1000 (CStr "Wheat") 0] [] "A" "Elevator" 50 "" =
    Some {| ur_bins := [mk_bin "A" 1000 (CStr "Wheat") 0];
            ur_unloads := [] ++ [mk_unload "t" "A" (variety_text (CStr "Wheat")) 0
                                   (strip "Elevator") (strip "")];
            ur_notices := [NWarnStock 50 0; NUnloaded 0 0] |}.
Proof.
  apply (unload_from_empty_bin "t" [mk_bin "A" 1000 (CStr "Wheat") 0] [] "A"
           "Elevator" 50 "" O (mk_bin "A" 1000 (CStr "Wheat") 0)).
  - discriminate.
  - lia.
  - reflexivity.
  - reflexivity.
  - reflexivity.
Defined.

(** A delivery of the bin's own variety into a capped bin that is already
    full adds nothing and warns that the whole quantity is excess, yet
    appends a delivery record of the full requested quantity. *)
Theorem delivery_into_full_bin : forall ts bins log tr b v q nt idx row,
  b <> "" -> 0 < q ->
  bin_index b bins = Some idx -> nth_error bins idx = Some row ->
  variety_text (Variety row) = strip v -> strip v <> "" ->
  0 < Capacity_bu row <= Bushels_in_bin row ->
  submit_delivery ts bins log tr b v q nt =
    Some {| dr_bins := bins;
            dr_deliveries := log ++ [mk_delivery ts (strip tr) b (strip v) q (strip nt)];
            dr_notices := [NWarnCapacity q 0; NDelivered 0 (Bushels_in_bin row)] |}.
Proof.
  intros ts bins log tr b v q nt idx row Hb Hq Ei En Hv Hne [Hc Hfull].
  unfold submit_delivery.
  apply String.eqb_neq in Hb. rewrite Hb.
  replace (q <=? 0) with false by (symmetry; apply Z.leb_gt; lia).
  simpl. rewrite Ei, En, Hv.
  apply String.eqb_neq in Hne. rewrite Hne, String.eqb_refl. simpl.
  replace (0 <? Capacity_bu row) with true by (symmetry; apply Z.ltb_lt; exact Hc).
  replace (Z.max 0 (Capacity_bu row - Bushels_in_bin row)) with 0 by lia.
  replace (0 <? q) with true by (symmetry; apply Z.ltb_lt; exact Hq).
  rewrite Z.sub_0_r, Z.add_0_r.
  rewrite set_at_id; [reflexivity|].
  intros r Hr. rewrite En in Hr. injection Hr as <-.
  destruct row; reflexivity.
Qed.

Lemma delivery_into_full_bin_witness :
  submit_delivery "t" [mk_bin "A" 1000 (CStr "Wheat") 1000] [] "T1" "A" "Wheat" 50 "" =
    Some {| dr_bins := [mk_bin "A" 1000 (CStr "Wheat") 1000];
            dr_deliveries := [] ++ [mk_delivery "t" (strip "T1") "A" (strip "Wheat") 50
                                      (strip "")];
            dr_notices := [NWarnCapacity 50 0; NDelivered 0 1000] |}.
Proof.
  apply (delivery_into_full_bin "t" [mk_bin "A" 1000 (CStr "Wheat") 1000] [] "T1" "A"
           "Wheat" 50 "" O (mk_bin "A" 1000 (CStr "Wheat") 1000)).
  - discriminate.
  - lia.
  - reflexivity.
  - reflexivity.
  - reflexivity.
  - vm_compute. discriminate.
  - simpl. lia.
Defined.


(** Helpers on the pandas missing-value markers. *)
Lemma na_fields_stripped : forall s, In s na_fields -> strip s = s.
Proof.
  intros s H. repeat (destruct H as [<-|H]; [reflexivity|]). destruct H.
Qed.

Lemma existsb_na_fields : forall s,
  existsb (String.eqb s) na_fields = true <-> In s na_fields.
Proof.
  intro s. rewrite existsb_exists. split.
  - intros (x & Hx & E). apply String.eqb_eq in E. now subst.
  - intro H. exists s. split; [exact H|apply String.eqb_refl].
Qed.

Lemma variety_text_CStr : forall s, variety_text (CStr s) = strip s.
Proof.
  intro s. unfold variety_text, or_empty. now destruct (String.eqb s "") eqn:E;
    [apply String.eqb_eq in E; subst|].
Qed.

(** A cell whose text is not a missing-value marker survives a reload. *)
Lemma reload_cell_keeps : forall x,
  ~ In (variety_text x) na_fields -> load_variety (save_variety x) = x.
Proof.
  intros [s|] H.
  - rewrite variety_text_CStr in H. unfold load_variety, save_variety.
    destruct (existsb (String.eqb s) na_fields) eqn:E; [|reflexivity].
    apply existsb_na_fields in E. exfalso. apply H.
    now rewrite na_fields_stripped.
  - exfalso. apply H. simpl. tauto.
Qed.

Lemma variety_text_adopted_row : forall row v,
  variety_text (Variety (adopted_row row v)) = adopted_var (Variety row) v.
Proof.
  intros row v. unfold adopted_row, adopted_var.
  destruct (String.eqb (variety_text (Variety row)) "") eqn:E; [|reflexivity].
  simpl. rewrite variety_text_CStr. apply strip_idem.
Qed.

(** Once a delivery of variety [v] has been accepted into a bin, and [v]
    is not a missing-value marker, the bin keeps [v] across a save and
    reload: every later delivery of another variety to it is refused as a
    mix, and nothing is recorded. *)
Theorem accepted_variety_exclusive_after_reload :
  forall ts bins log tr b v q nt r ts2 log2 tr2 w q2 nt2,
  submit_delivery ts bins log tr b v q nt = Some r ->
  dr_deliveries r <> log ->
  csv_text_table (dr_bins r) = true ->
  ~ In (strip v) na_fields ->
  0 < q2 -> strip w <> strip v ->
  submit_delivery ts2 (reload_bins (dr_bins r)) log2 tr2 b w q2 nt2 =
    Some {| dr_bins := reload_bins (dr_bins r); dr_deliveries := log2;
            dr_notices := [NErrorMix b (strip v) (strip w)] |}.
Proof.
  intros ts bins log tr b v q nt r ts2 log2 tr2 w q2 nt2 H Hlog _ Hna Hq2 Hw.
  destruct (submit_delivery_accepted _ _ _ _ _ _ _ _ _ H Hlog)
    as (idx & row & Ei & _ & Hb & _ & _ & _ & _ & _).
  destruct (submit_delivery_accepted_row _ _ _ _ _ _ _ _ _ H Hlog)
    as (idx' & row0 & Ei' & _ & _ & Hv & _ & En & _).
  rewrite Ei in Ei'. injection Ei' as <-.
  set (row' := set_Bushels_in_bin
                 (Bushels_in_bin row0
                  + accepted_amount (Capacity_bu row0) (Bushels_in_bin row0) q)
                 (adopted_row row0 v)) in En.
  assert (Ht : variety_text (Variety row') = strip v).
  { subst row'. simpl. now rewrite variety_text_adopted_row. }
  pose proof (nth_error_reload _ _ _ En) as Er.
  rewrite reload_cell_keeps in Er by (rewrite Ht; exact Hna).
  assert (Hrow : set_Variety (Variety row') row' = row')
    by (destruct row'; reflexivity).
  rewrite Hrow in Er.
  rewrite <- Ht.
  apply (submit_delivery_mismatch ts2 _ log2 tr2 b w q2 nt2 idx row'); auto.
  - rewrite bin_index_reload.
    exact (submit_delivery_same_index _ _ _ _ _ _ _ _ _ _ H Ei).
  - rewrite Ht. intro E. apply Hna. rewrite E. simpl. tauto.
  - now rewrite Ht.
Qed.

Lemma accepted_variety_exclusive_after_reload_witness :
  submit_delivery "t" ex_bins [] "T1" "A" "Wheat" 500 "" = Some ex_run /\
  submit_delivery "t2" (reload_bins (dr_bins ex_run)) [] "T2" "A" "Barley" 50 "" =
    Some {| dr_bins := reload_bins (dr_bins ex_run); dr_deliveries := [];
            dr_notices := [NErrorMix "A" (strip "Wheat") (strip "Barley")] |}.
Proof.
  split; [reflexivity|].
  apply (accepted_variety_exclusive_after_reload "t" ex_bins [] "T1" "A" "Wheat" 500 ""
           ex_run "t2" [] "T2" "Barley" 50 "").
  - reflexivity.
  - discriminate.
  - vm_compute. reflexivity.
  - vm_compute. intros H. repeat (destruct H as [H|H]; [discriminate H|]). exact H.
  - lia.
  - vm_compute. discriminate.
Defined.

(** The Add / Update form looks the bin up by the name as typed but stores
    a new bin under its stripped name: a name typed with surrounding
    blanks adds a second row for an existing bin, and later lookups by the
    bin's name still find only the old row. *)
Theorem add_untrimmed_name_duplicates : forall bins n c v j,
  strip n <> "" -> bin_index n bins = None ->
  bin_index (strip n) bins = Some j ->
  fst (submit_add_bin bins n c v) = bins ++ [mk_bin (strip n) c (CStr (strip v)) 0] /\
  bin_index (strip n) (fst (submit_add_bin bins n c v)) = Some j /\
  (2 <= length (filter (fun r => String.eqb (Bin r) (strip n))
                   (fst (submit_add_bin bins n c v))))%nat.
Proof.
  intros bins n c v j Hs Hn Hj.
  assert (Hf : fst (submit_add_bin bins n c v)
               = bins ++ [mk_bin (strip n) c (CStr (strip v)) 0]).
  { unfold submit_add_bin. apply String.eqb_neq in Hs. now rewrite Hs, Hn. }
  rewrite Hf. split; [reflexivity|]. split.
  - clear Hf Hn. revert j Hj. induction bins as [|x l IH]; intros j Hj;
      simpl in *; [discriminate|].
    destruct (String.eqb (Bin x) (strip n)); [exact Hj|].
    destruct (bin_index (strip n) l) as [k|] eqn:Ek; simpl in Hj; [|discriminate].
    injection Hj as <-. now rewrite (IH k eq_refl).
  - rewrite filter_app, length_app. simpl. rewrite String.eqb_refl. simpl.
    destruct (bin_index_found _ _ _ Hj) as (r & Hr & Hb).
    assert (Hin : In r (filter (fun r => String.eqb (Bin r) (strip n)) bins)).
    { apply filter_In. split; [eapply nth_error_In; eauto|].
      now apply String.eqb_eq. }
    destruct (filter (fun r => String.eqb (Bin r) (strip n)) bins);
      [destruct Hin|simpl; lia].
Qed.

Lemma add_untrimmed_name_duplicates_witness :
  fst (submit_add_bin ex_bins "A " 500 "Barley")
    = ex_bins ++ [mk_bin (strip "A ") 500 (CStr (strip "Barley")) 0] /\
  bin_index (strip "A ") (fst (submit_add_bin ex_bins "A " 500 "Barley")) = Some O /\
  (2 <= length (filter (fun r => String.eqb (Bin r) (strip "A "))
                   (fst (submit_add_bin ex_bins "A " 500 "Barley"))))%nat.
Proof.
  apply (add_untrimmed_name_duplicates ex_bins "A " 500 "Barley" O).
  - vm_compute. discriminate.
  - reflexivity.
  - reflexivity.
Defined.

(** Unloading all of a bin (a request of at least its fill) leaves it at 0
    bushels with its Variety kept: the bin is then offered by "Clear
    Variety on Empty Bins" when its Variety field is a non-empty string, and
    until cleared it still refuses deliveries of any other variety. *)
Theorem unload_all_keeps_variety : forall ts bins ul b d q nt u idx row
                                        ts2 log tr w q2 nt2,
  b <> "" -> 0 < q -> Bushels_in_bin row <= q ->
  bin_index b bins = Some idx -> nth_error bins idx = Some row ->
  submit_unload ts bins ul b d q nt = Some u ->
  exists row',
    nth_error (ur_bins u) idx = Some row' /\
    Bushels_in_bin row' = 0 /\ Variety row' = Variety row /\
    (fillna_empty (Variety row) <> "" -> In row' (empty_bins (ur_bins u))) /\
    (variety_text (Variety row) <> "" -> 0 < q2 ->
     strip w <> variety_text (Variety row) ->
     submit_delivery ts2 (ur_bins u) log tr b w q2 nt2 =
       Some {| dr_bins := ur_bins u; dr_deliveries := log;
               dr_notices := [NErrorMix b (variety_text (Variety row)) (strip w)] |}).
Proof.
  intros ts bins ul b d q nt u idx row ts2 log tr w q2 nt2 Hb Hq Hle Ei En H.
  unfold submit_unload in H.
  assert (Hb' := Hb). apply String.eqb_neq in Hb'. rewrite Hb' in H.
  replace (q <=? 0) with false in H by (symmetry; apply Z.leb_gt; lia).
  simpl in H. rewrite Ei, En in H.
  assert (Hbins : ur_bins u = set_at idx (set_Bushels_in_bin 0) bins).
  { destruct (Bushels_in_bin row <? q) eqn:Ec; injection H as <-; simpl.
    - now replace (Bushels_in_bin row - Bushels_in_bin row) with 0 by lia.
    - apply Z.ltb_ge in Ec.
      now replace (Z.max 0 (Bushels_in_bin row - q)) with 0 by lia. }
  exists (set_Bushels_in_bin 0 row).
  assert (En' : nth_error (ur_bins u) idx = Some (set_Bushels_in_bin 0 row))
    by (rewrite Hbins; now apply nth_error_set_at_same).
  split; [exact En'|]. split; [reflexivity|]. split; [reflexivity|]. split.
  - intro Hf. unfold empty_bins. apply filter_In. split.
    + eapply nth_error_In. exact En'.
    + simpl. apply String.eqb_neq in Hf. now rewrite Hf.
  - intros Hv Hq2 Hw.
    apply (submit_delivery_mismatch ts2 (ur_bins u) log tr b w q2 nt2 idx
             (set_Bushels_in_bin 0 row)); auto.
    rewrite Hbins, bin_index_set_at by reflexivity. exact Ei.
Qed.

Lemma unload_all_keeps_variety_witness :
  exists row',
    nth_error [mk_bin "A" 1000 (CStr "Wheat") 0] O = Some row' /\
    Bushels_in_bin row' = 0 /\ Variety row' = CStr "Wheat" /\
    (fillna_empty (CStr "Wheat") <> "" ->
       In row' (empty_bins [mk_bin "A" 1000 (CStr "Wheat") 0])) /\
    (variety_text (CStr "Wheat") <> "" -> 0 < 50 ->
     strip "Barley" <> variety_text (CStr "Wheat") ->
     submit_delivery "t2" [mk_bin "A" 1000 (CStr "Wheat") 0] [] "T1" "A" "Barley" 50 "" =
       Some {| dr_bins := [mk_bin "A" 1000 (CStr "Wheat") 0]; dr_deliveries := [];
               dr_notices := [NErrorMix "A" (variety_text (CStr "Wheat")) (strip "Barley")] |}).
Proof.
  apply (unload_all_keeps_variety "t" ex_bins [] "A" "Elevator" 700 ""
           {| ur_bins := [mk_bin "A" 1000 (CStr "Wheat") 0];
              ur_unloads := [mk_unload "t" "A" "Wheat" 600 "Elevator" ""];
              ur_notices := [NWarnStock 700 600; NUnloaded 600 0] |}
           O (mk_bin "A" 1000 (CStr "Wheat") 600) "t2" [] "T1" "Barley" 50 "").
  - discriminate.
  - lia.
  - simpl. lia.
  - reflexivity.
  - reflexivity.
  - reflexivity.
Defined.

(** After "Reset Bin Fill to 0" the dashboard shows nothing in the bins,
    and, with no negative capacity, a total remaining equal to the total
    capacity. *)
Theorem reset_fill_dashboard : forall bs,
  total_in_bins (fst (reset_bin_fill bs)) = 0 /\
  total_capacity (fst (reset_bin_fill bs)) = total_capacity bs /\
  (Forall (fun r => 0 <= Capacity_bu r) bs ->
   total_remaining (fst (reset_bin_fill bs)) = total_capacity bs).
Proof.
  intro bs.
  assert (Hfst : fst (reset_bin_fill bs) = map (set_Bushels_in_bin 0) bs)
    by (destruct bs; reflexivity).
  rewrite Hfst. clear Hfst.
  induction bs as [|r m IH]; [repeat split; reflexivity|].
  destruct IH as (H1 & H2 & H3). simpl.
  repeat split.
  - rewrite H1. reflexivity.
  - rewrite H2. reflexivity.
  - intro Hf. inversion Hf; subst. rewrite H3 by assumption.
    unfold remaining_bu. simpl. lia.
Qed.

Lemma reset_fill_dashboard_witness :
  total_in_bins (fst (reset_bin_fill [mk_bin "A" 1000 (CStr "Wheat") 600;
                                      mk_bin "B" 500 CNaN 0])) = 0 /\
  total_capacity (fst (reset_bin_fill [mk_bin "A" 1000 (CStr "Wheat") 600;
                                       mk_bin "B" 500 CNaN 0]))
    = total_capacity [mk_bin "A" 1000 (CStr "Wheat") 600; mk_bin "B" 500 CNaN 0] /\
  (Forall (fun r => 0 <= Capacity_bu r) [mk_bin "A" 1000 (CStr "Wheat") 600;
                                         mk_bin "B" 500 CNaN 0] ->
   total_remaining (fst (reset_bin_fill [mk_bin "A" 1000 (CStr "Wheat") 600;
                                         mk_bin "B" 500 CNaN 0]))
   = total_capacity [mk_bin "A" 1000 (CStr "Wheat") 600; mk_bin "B" 500 CNaN 0]).
Proof.
  exact (reset_fill_dashboard [mk_bin "A" 1000 (CStr "Wheat") 600; mk_bin "B" 500 CNaN 0]).
Defined.
